(** * usbcat: a flow-controlled pipe between stdin/stdout and two USB bulk endpoints

    Shallow embedding of [examples/usbcat/device.py] of python-functionfs:
    the two endpoint classes, the lifecycle hooks of [USBCat] and the
    callbacks and event loop of [SubprocessCat].

    The Python code is effectful: it prints on stderr, mutates a deque, an
    epoll interest set and the local streams, and raises exceptions.  It is
    embedded in a state-and-exception monad [M S A], where a raised exception
    keeps the mutations that happened before it, as in Python.

    What the file takes from elsewhere is kept apart: the framework
    ([functionfs.Function], [functionfs.EndpointINFile]) is not among the
    sources, so its [processEvents] and [submit] are parameters of the event
    loop ([runtime]) and the endpoints are driven by explicit sequences of
    the calls the framework makes; Python's UTF-8 codec is a parameter too;
    what [poll()] and [sys.stdin.read] give comes from the environment. *)

From Stdlib Require Import ZArith List String Lia.
From stdpp Require Import base decidable option list gmap sets strings.

Local Open Scope string_scope.
Local Open Scope list_scope.
Local Open Scope Z_scope.

(** ** Python values, exceptions and constants used by the program *)

(** [errno] values of the platform FunctionFS exists on (Linux). *)
Module errno.
Definition ENOENT : Z := 2.
Definition EINTR : Z := 4.
Definition EAGAIN : Z := 11.
Definition EEXIST : Z := 17.
Definition ESHUTDOWN : Z := 108.
End errno.

Module select.
Definition EPOLLIN : Z := 1.
End select.

(** [BUF_SIZE = 1024 * 1024] *)
Definition BUF_SIZE : Z := 1024 * 1024.

(** A [bytes] / [bytearray] / [memoryview] content. *)
Abbreviation bytes := (list Byte.byte).

(** A buffer list, as handed to [submit] and given back by [onComplete]. *)
Abbreviation buflist := (list bytes).

(** What [sys.stdin.read] may give and what [sys.stdout.write] may receive:
    [None], a [bytes] object, or a [str] (a sequence of code points); of
    these only a [str] has an [encode] method. *)
Inductive pyval : Type :=
| PyNone
| PyBytes (b : bytes)
| PyStr (s : list Z).

(** Python truthiness: [None], [b''] and [''] are false. *)
Definition truthy (v : pyval) : bool :=
  match v with
  | PyNone => false
  | PyBytes b => negb (bool_decide (b = []))
  | PyStr s => negb (bool_decide (s = []))
  end.

(** The exceptions that occur in the program.  [IOError] is [OSError];
    [FileExistsError] and [FileNotFoundError] are [OSError]s told apart by
    their [errno]. *)
Inductive exn : Type :=
| EOFError
| KeyboardInterrupt
| OSError (errno : Z)
| KeyError (key : Z)
| IndexError
| AttributeError
| Exception (name : string).

(** ** The monad *)

Inductive outcome (A : Type) : Type :=
| Return (a : A)
| Raise (e : exn).
Arguments Return {A} a.
Arguments Raise {A} e.

Definition M (S A : Type) : Type := S -> outcome A * S.

Definition ret {S A} (a : A) : M S A := fun s => (Return a, s).

Definition bind {S A B} (m : M S A) (k : A -> M S B) : M S B :=
  fun s =>
    match m s with
    | (Return a, s') => k a s'
    | (Raise e, s') => (Raise e, s')
    end.

Definition raise {S A} (e : exn) : M S A := fun s => (Raise e, s).

(** [try: m except e: h e] where [h] re-raises what it does not handle. *)
Definition try_except {S A} (m : M S A) (h : exn -> M S A) : M S A :=
  fun s =>
    match m s with
    | (Return a, s') => (Return a, s')
    | (Raise e, s') => h e s'
    end.

Definition gets {S A} (f : S -> A) : M S A := fun s => (Return (f s), s).
Definition modify {S} (f : S -> S) : M S unit := fun s => (Return tt, f s).

Declare Scope py_scope.
Delimit Scope py_scope with py.
Notation "x <~ c1 ;; c2" := (bind c1 (fun x => c2))
  (at level 100, c1 at next level, right associativity) : py_scope.
Notation "c1 ;;; c2" := (bind c1 (fun _ => c2))
  (at level 100, right associativity) : py_scope.
Local Open Scope py_scope.

(** [for x in l: body x] *)
Fixpoint for_each {S A} (l : list A) (body : A -> M S unit) : M S unit :=
  match l with
  | [] => ret tt
  | x :: l' => body x ;;; for_each l' body
  end.

(** ** The process state

    [stderr] holds the lines printed by [trace]; the deque is the outbound
    endpoint's private [__stranded_buffer_list_queue]; [user] is whatever the
    callbacks given to the endpoints act on (in [SubprocessCat]: the epoll
    object and the local streams). *)

Inductive atom : Type :=
| Str (s : string)
| Int (n : Z)
| Fmt (fmt : string) (args : list Z).

Record world (U : Type) : Type := World {
  stderr : list (list atom);
  stranded_buffer_list_queue : list buflist;
  user : U
}.
Arguments World {U} _ _ _.
Arguments stderr {U} _.
Arguments stranded_buffer_list_queue {U} _.
Arguments user {U} _.

Definition set_stderr {U} (f : list (list atom) -> list (list atom)) (w : world U) : world U :=
  World (f (stderr w)) (stranded_buffer_list_queue w) (user w).

Definition set_queue {U} (f : list buflist -> list buflist) (w : world U) : world U :=
  World (stderr w) (f (stranded_buffer_list_queue w)) (user w).

(** Run a callback, which sees its own state only. *)
Definition call {U A} (m : M U A) : M (world U) A :=
  fun w =>
    let (r, u') := m (user w) in
    (r, World (stderr w) (stranded_buffer_list_queue w) u').

(** [trace = functools.partial(print, file=sys.stderr)] *)
Definition trace {U} (args : list atom) : M (world U) unit :=
  modify (set_stderr (fun l => l ++ [args])).

(** [collections.deque]: [append], [popleft] (raising [IndexError] when
    empty) and [clear]. *)
Module deque.
Definition append {U} (x : buflist) : M (world U) unit :=
  modify (set_queue (fun q => q ++ [x])).

Definition popleft {U} : M (world U) buflist :=
  fun w =>
    match stranded_buffer_list_queue w with
    | [] => (Raise IndexError, w)
    | x :: q => (Return x, set_queue (fun _ => q) w)
    end.

Definition clear {U} : M (world U) unit :=
  modify (set_queue (fun _ => [])).

(** Truthiness of a deque: it is not empty. *)
Definition nonempty {U} : M (world U) bool :=
  gets (fun w => negb (bool_decide (stranded_buffer_list_queue w = []))).
End deque.

(** ** [class EndpointOUTFile(functionfs.EndpointOUTFile)] *)
Module EndpointOUTFile.
Section methods.
Context {U : Type}.
(** [self.__writer], given to [__init__]. *)
Variable writer : bytes -> M U unit.

(** [data] is a [memoryview] or [None]; [data.tobytes()] is its content. *)
Definition onComplete (data : option bytes) (status : Z) : M (world U) unit :=
  match data with
  | None => trace [Str "aio read completion error:"; Int (- status)]
  | Some d =>
      trace [Str "aio read completion received"; Int (Z.of_nat (length d)); Str "bytes"] ;;;
      call (writer d)
  end.
End methods.
End EndpointOUTFile.

(** ** [class EndpointINFile(functionfs.EndpointINFile)] *)
Module EndpointINFile.
Section methods.
Context {U : Type}.
(** [self.__onCanSend] and [self.__onCannotSend], given to [__init__]. *)
Variables onCanSend onCannotSend : M U unit.

Definition onComplete (buffer_list : buflist) (user_data : pyval) (status : Z)
  : M (world U) (option buflist) :=
  (if decide (status < 0)
   then trace [Str "aio write completion error:"; Int (- status)]
   else trace [Str "aio write completion sent"; Int status; Str "bytes"]) ;;;
  stranded <~ deque.nonempty ;;
  if negb (bool_decide (status = - errno.ESHUTDOWN)) && stranded then
    buffer_list <~ deque.popleft ;;
    stranded <~ deque.nonempty ;;
    (if negb stranded then
       trace [Str "send queue has room, resume sending"] ;;;
       call onCanSend
     else ret tt) ;;;
    ret (Some buffer_list)
  else
    ret None.

Definition onSubmitEAGAIN (buffer_list : buflist) (user_data : pyval) : M (world U) unit :=
  deque.append buffer_list ;;;
  trace [Str "send queue full, pause sending"] ;;;
  call onCannotSend.

Definition forgetStranded : M (world U) unit :=
  deque.clear.
End methods.
End EndpointINFile.

(** ** [functionfs.Function], the base class of [USBCat]

    The lifecycle hooks of the base class are called through [super()]. *)
Module Function.
Section hooks.
Context {U : Type}.

(** Modelled from the spec: [functionfs.Function.onBind], [onUnbind],
    [onEnable], [onDisable], [onSuspend], [onResume] and [__exit__] live in
    [functionfs/__init__.py], which is not among the sources.  The spec
    gives the lifecycle transitions no effect on the pending queue, on the
    trace or on the callbacks' state beyond what [USBCat] itself does;
    releasing the endpoint handles is outside the state modelled here. *)
Definition onBind : M (world U) unit := ret tt.
Definition onUnbind : M (world U) unit := ret tt.
Definition onEnable : M (world U) unit := ret tt.
Definition onDisable : M (world U) unit := ret tt.
Definition onSuspend : M (world U) unit := ret tt.
Definition onResume : M (world U) unit := ret tt.
Definition __exit__ : M (world U) unit := ret tt.
End hooks.
End Function.

(** ** [class USBCat(functionfs.Function)]

    [self.in_ep], set by [__enter__], is the [EndpointINFile] that
    [getEndpointClass] builds from [onCanSend] and [onCannotSend]; the OUT
    endpoint is the [EndpointOUTFile] built from [writer]. *)
Module USBCat.
Section methods.
Context {U : Type}.
(** [self.__writer], [self.__onCanSend], [self.__onCannotSend] *)
Variable writer : bytes -> M U unit.
Variables onCanSend onCannotSend : M U unit.

Definition __exit__ : M (world U) unit :=
  call onCannotSend ;;;
  Function.__exit__.

Definition onBind : M (world U) unit :=
  trace [Str "onBind"] ;;;
  Function.onBind.

Definition onUnbind : M (world U) unit :=
  trace [Str "onUnbind"] ;;;
  EndpointINFile.forgetStranded ;;;
  call onCannotSend ;;;
  Function.onUnbind.

Definition onEnable : M (world U) unit :=
  trace [Str "onEnable"] ;;;
  Function.onEnable ;;;
  call onCanSend.

Definition onDisable : M (world U) unit :=
  trace [Str "onDisable"] ;;;
  EndpointINFile.forgetStranded ;;;
  call onCannotSend ;;;
  Function.onDisable.

Definition onSuspend : M (world U) unit :=
  trace [Str "onSuspend"] ;;;
  Function.onSuspend.

Definition onResume : M (world U) unit :=
  trace [Str "onResume"] ;;;
  Function.onResume.
End methods.
End USBCat.

(** ** [select.epoll]

    The interest set of an epoll object.  Every registration of the program
    asks for [EPOLLIN], so the set of registered descriptors is all there is
    to it.  [register] of a registered descriptor fails with [EEXIST] and
    [unregister] of an unregistered one with [ENOENT] (epoll_ctl(2)). *)
Module epoll.
Definition register (fd eventmask : Z) (e : gset Z) : outcome unit * gset Z :=
  if decide (fd ∈ e) then (Raise (OSError errno.EEXIST), e)
  else (Return tt, {[fd]} ∪ e).

Definition unregister (fd : Z) (e : gset Z) : outcome unit * gset Z :=
  if decide (fd ∈ e) then (Return tt, e ∖ {[fd]})
  else (Raise (OSError errno.ENOENT), e).
End epoll.

(** ** [class SubprocessCat(SubprocessFunction)] *)

(** The state [SubprocessCat]'s callbacks act on. *)
Record cat : Type := Cat {
  __epoll : option (gset Z);        (* [__epoll = None], then the epoll object *)
  __out_encoding : option string;   (* [self.__out_encoding] *)
  stdin : list pyval;               (* what the coming [sys.stdin.read]s give *)
  stdout : list pyval               (* what [sys.stdout.write] was given, oldest first *)
}.

(** What the program takes from outside this file. *)
Record runtime : Type := Runtime {
  (** [str.encode('utf-8', errors='replace')] and
      [bytes.decode('utf-8', errors='replace')], Python's codec *)
  utf8_encode_replace : list Z -> bytes;
  utf8_decode_replace : bytes -> list Z;
  (** [sys.stdin.fileno()] and [function.eventfd.fileno()] *)
  stdin_fileno : Z;
  eventfd_fileno : Z;
  (** [function.processEvents] and [function.in_ep.submit], methods of
      [functionfs.Function] and [functionfs.EndpointINFile] *)
  processEvents : M (world cat) unit;
  in_ep_submit : buflist -> M (world cat) unit
}.

(** What [poll()] does when called: it gives an event list or raises. *)
Inductive poll_outcome : Type :=
| PollEvents (event_list : list (Z * Z))
| PollRaise (e : exn).

(** How far [run] got on a finite script of [poll()] outcomes: it is still
    blocked in [poll()] when the script is used up, or it has ended. *)
Inductive progress : Type :=
| Blocked
| Ended (o : outcome unit).

Module SubprocessCat.

(** [getattr(sys.stdout, 'encoding', None)], where [attr] is [None] when
    [sys.stdout] has no such attribute and [Some v] when it has value [v]
    (which may itself be [None]). *)
Definition getattr_encoding (attr : option (option string)) : option string :=
  match attr with
  | None => None
  | Some v => v
  end.

Definition __init__ (stdout_encoding_attr : option (option string)) : M cat unit :=
  modify (fun c =>
    Cat (__epoll c) (getattr_encoding stdout_encoding_attr) (stdin c) (stdout c)).

(** [sys.stdout.write(value)] *)
Definition stdout_write (value : pyval) : M cat unit :=
  modify (fun c => Cat (__epoll c) (__out_encoding c) (stdin c) (stdout c ++ [value])).

(** [sys.stdin.read(size)]: the next chunk the stream has, and the empty
    value (end of input) once it has no more. *)
Definition stdin_read (size : Z) : M cat pyval :=
  fun c =>
    match stdin c with
    | [] => (Return (PyBytes []), c)
    | v :: rest => (Return v, Cat (__epoll c) (__out_encoding c) rest (stdout c))
    end.

(** [self.__epoll.meth(...)]: [AttributeError] while [__epoll] is [None]. *)
Definition with_epoll (meth : gset Z -> outcome unit * gset Z) : M cat unit :=
  fun c =>
    match __epoll c with
    | None => (Raise AttributeError, c)
    | Some e =>
        let (r, e') := meth e in
        (r, Cat (Some e') (__out_encoding c) (stdin c) (stdout c))
    end.

Section methods.
Variable rt : runtime.

Definition __writer (value : bytes) : M cat unit :=
  enc <~ gets __out_encoding ;;
  stdout_write
    match enc with
    | None => PyBytes value
    | Some _ => PyStr (utf8_decode_replace rt value)
    end.

Definition __onCanSend : M cat unit :=
  with_epoll (epoll.register (stdin_fileno rt) select.EPOLLIN).

Definition __stopSender : M cat unit :=
  try_except
    (with_epoll (epoll.unregister (stdin_fileno rt)))
    (fun exc =>
       match exc with
       | OSError e => if decide (e ≠ errno.ENOENT) then raise exc else ret tt
       | _ => raise exc
       end).

(** [bytearray(value)] *)
Definition bytearray (value : pyval) : M (world cat) bytes :=
  match value with
  | PyBytes b => ret b
  | _ => raise (Exception "TypeError")
  end.

(** The closure [sender] of [run]. *)
Definition sender : M (world cat) unit :=
  value <~ call (stdin_read BUF_SIZE) ;;
  if negb (truthy value) then raise EOFError
  else
    (* [encode = getattr(value, 'encode', None)]: a [str] has it *)
    let value :=
      match value with
      | PyStr s => PyBytes (utf8_encode_replace rt s)
      | _ => value
      end in
    buf <~ bytearray value ;;
    trace [Str "queuing"; Int (Z.of_nat (length buf)); Str "bytes"] ;;;
    in_ep_submit rt [buf].

Definition event_dispatcher_dict : gmap Z (M (world cat) unit) :=
  <[eventfd_fileno rt := processEvents rt]> (<[stdin_fileno rt := sender]> ∅).

(** [poll()] *)
Definition poll (p : poll_outcome) : M (world cat) (list (Z * Z)) :=
  match p with
  | PollEvents event_list => ret event_list
  | PollRaise e => raise e
  end.

(** One turn of [while True]: the [try] / [except OSError] / [else]. *)
Definition iteration (p : poll_outcome) : M (world cat) unit :=
  fun w =>
    match poll p w with
    | (Raise exc, w') =>
        match exc with
        | OSError e => if decide (e ≠ errno.EINTR) then (Raise exc, w') else (Return tt, w')
        | _ => (Raise exc, w')
        end
    | (Return event_list, w') =>
        for_each event_list (fun '(fd, event) =>
          trace [Fmt "epoll: fd %r got event %r" [fd; event]] ;;;
          match event_dispatcher_dict !! fd with
          | Some handler => handler
          | None => raise (KeyError fd)
          end) w'
    end.

(** [while True:], on the [poll()] outcomes of [script]. *)
Fixpoint while_True (script : list poll_outcome) (w : world cat) : progress * world cat :=
  match script with
  | [] => (Blocked, w)
  | p :: script' =>
      match iteration p w with
      | (Return _, w') => while_True script' w'
      | (Raise e, w') => (Ended (Raise e), w')
      end
  end.

(** [except (KeyboardInterrupt, EOFError): pass] around the loop. *)
Definition except_pass (r : progress * world cat) : progress * world cat :=
  match r with
  | (Ended (Raise KeyboardInterrupt), w) => (Ended (Return tt), w)
  | (Ended (Raise EOFError), w) => (Ended (Return tt), w)
  | r => r
  end.

Definition run (script : list poll_outcome) (w : world cat) : progress * world cat :=
  (* [self.__epoll = epoll = select.epoll(3)] *)
  let w := World (stderr w) (stranded_buffer_list_queue w)
             (Cat (Some ∅) (__out_encoding (user w)) (stdin (user w)) (stdout (user w))) in
  (* [fcntl.fcntl(sys.stdin, F_SETFL, ... | os.O_NONBLOCK)] changes nothing
     of the state kept here *)
  (* [epoll.register(function.eventfd, select.EPOLLIN)] *)
  match call (with_epoll (epoll.register (eventfd_fileno rt) select.EPOLLIN)) w with
  | (Raise e, w') => (Ended (Raise e), w')
  | (Return _, w') =>
      (* [try: while True: ... except (KeyboardInterrupt, EOFError): pass] *)
      except_pass (while_True script w')
  end.

(** [USBCat(path=path, writer=self.__writer, onCanSend=self.__onCanSend,
    onCannotSend=self.__stopSender)], as [__getFunction] builds it. *)
Definition in_ep_onComplete := EndpointINFile.onComplete (U := cat) __onCanSend.
Definition in_ep_onSubmitEAGAIN := EndpointINFile.onSubmitEAGAIN (U := cat) __stopSender.
Definition out_ep_onComplete := EndpointOUTFile.onComplete __writer.
Definition onEnable := USBCat.onEnable __onCanSend.
Definition onDisable := USBCat.onDisable __stopSender.
Definition onUnbind := USBCat.onUnbind __stopSender.
End methods.
End SubprocessCat.

(** * [functionfs/tests/device.py]: the test gadget

    [functionfs.ch9] and [tests/common.py] are not among the sources: the
    constants the test gadget takes from them are parameters, and so are the
    control endpoint [ep0] and the base class's [onSetup]. *)

(** The constants of [functionfs.ch9] the test gadget uses. *)
Record ch9 : Type := Ch9 {
  USB_DIR_OUT : Z;
  USB_DIR_IN : Z;
  USB_TYPE_MASK : Z;
  USB_TYPE_VENDOR : Z;
  USB_ENDPOINT_XFER_BULK : Z;
  USB_CLASS_VENDOR_SPEC : Z
}.

(** [range(start, stop)] *)
Definition range (start stop : Z) : list Z := seqZ start (stop - start).

(** [l[:n]], also for a negative [n]. *)
Definition slice_to {A} (l : list A) (n : Z) : list A :=
  if decide (0 <= n) then take (Z.to_nat n) l
  else take (length l - Z.to_nat (- n)) l.

Definition FS_BULK_MAX_PACKET_SIZE : Z := 64.
Definition HS_BULK_MAX_PACKET_SIZE : Z := 512.

(** The fields of an interface and of an endpoint descriptor that the test
    gadget sets.  The descriptor classes are ctypes structures of
    [functionfs], which is not among the sources: a field named [b...],
    [bm...] or [i...] is one byte and a field named [w...] is two, the
    widths [onEnable] prints them with, and an integer field of a ctypes
    structure keeps the value it is given modulo its size. *)
Definition c_uint8 (x : Z) : Z := x mod 256.
Definition c_uint16 (x : Z) : Z := x mod 65536.

Record USBInterfaceDescriptor : Type := InterfaceDescriptor {
  bInterfaceNumber : Z;
  bAlternateSetting : Z;
  bNumEndpoints : Z;
  bInterfaceClass : Z;
  bInterfaceSubClass : Z;
  bInterfaceProtocol : Z;
  iInterface : Z
}.

Record USBEndpointDescriptorNoAudio : Type := EndpointDescriptor {
  bEndpointAddress : Z;
  bmAttributes : Z;
  wMaxPacketSize : Z;
  bInterval : Z
}.

Inductive descriptor : Type :=
| Interface (d : USBInterfaceDescriptor)
| Endpoint (d : USBEndpointDescriptorNoAudio).

(** [functionfs.getDescriptor(klass, **kw)] for the two classes: each
    keyword argument is stored in the field of its name. *)
Definition getDescriptor_interface
  (bInterfaceNumber bAlternateSetting bNumEndpoints bInterfaceClass
     bInterfaceSubClass bInterfaceProtocol iInterface : Z) : descriptor :=
  Interface
    (InterfaceDescriptor (c_uint8 bInterfaceNumber) (c_uint8 bAlternateSetting)
       (c_uint8 bNumEndpoints) (c_uint8 bInterfaceClass) (c_uint8 bInterfaceSubClass)
       (c_uint8 bInterfaceProtocol) (c_uint8 iInterface)).

Definition getDescriptor_endpoint
  (bEndpointAddress bmAttributes wMaxPacketSize bInterval : Z) : descriptor :=
  Endpoint
    (EndpointDescriptor (c_uint8 bEndpointAddress) (c_uint8 bmAttributes)
       (c_uint16 wMaxPacketSize) (c_uint8 bInterval)).

(** ** [class FunctionFSTestDevice(functionfs.Function)] *)
Module FunctionFSTestDevice.

(** The attributes [onSetup] uses, what was printed, and the state [E] of
    the control endpoint. *)
Record device (E : Type) : Type := Device {
  __ep_count : Z;
  __echo_payload : bytes;
  printed : list (list atom);
  ep0 : E
}.
Arguments Device {E} _ _ _ _.
Arguments __ep_count {E} _.
Arguments __echo_payload {E} _.
Arguments printed {E} _.
Arguments ep0 {E} _.

(** [self.ep0] and [super()], as far as [onSetup] uses them. *)
Record framework (E : Type) : Type := Framework {
  ep0_write : bytes -> M E unit;
  ep0_read : Z -> M E bytes;
  ep0_halt : Z -> M E unit;
  Function_onSetup : Z -> Z -> Z -> Z -> Z -> M (device E) unit
}.
Arguments Framework {E} _ _ _ _.
Arguments ep0_write {E} _ _.
Arguments ep0_read {E} _ _.
Arguments ep0_halt {E} _ _.
Arguments Function_onSetup {E} _ _ _ _ _ _.

(** Run a method of [self.ep0]. *)
Definition on_ep0 {E A} (m : M E A) : M (device E) A :=
  fun d =>
    let (r, e') := m (ep0 d) in
    (r, Device (__ep_count d) (__echo_payload d) (printed d) e').

Definition print {E} (args : list atom) : M (device E) unit :=
  modify (fun d => Device (__ep_count d) (__echo_payload d) (printed d ++ [args]) (ep0 d)).

Section methods.
Variable c : ch9.
(** [common.REQUEST_ECHO] *)
Variable REQUEST_ECHO : Z.

(** [ep_list], as [__init__] builds it with [sum(..., [])]. *)
Definition ep_list (ep_pair_count : Z) : list Z :=
  concat
    (map (fun x => [Z.lor x (USB_DIR_IN c); Z.lor x (USB_DIR_OUT c)])
         (range 1 (ep_pair_count + 1))).

Definition INTERFACE_DESCRIPTOR (ep_pair_count : Z) : descriptor :=
  getDescriptor_interface 0 0 (Z.of_nat (length (ep_list ep_pair_count)))
    (USB_CLASS_VENDOR_SPEC c) 0 0 1.

(** One turn of [for endpoint in ep_list:], appending to both lists. *)
Definition append_endpoint (lists : list descriptor * list descriptor) (endpoint : Z)
  : list descriptor * list descriptor :=
  let (fs_list, hs_list) := lists in
  (fs_list ++ [getDescriptor_endpoint endpoint (USB_ENDPOINT_XFER_BULK c)
                 FS_BULK_MAX_PACKET_SIZE 0],
   hs_list ++ [getDescriptor_endpoint endpoint (USB_ENDPOINT_XFER_BULK c)
                 HS_BULK_MAX_PACKET_SIZE 0]).

(** [__init__]: the [fs_list] and [hs_list] handed to the base class, and
    the new object, whose control endpoint is in the state [e]. *)
Definition __init__ {E} (ep_pair_count : Z) (e : E)
  : list descriptor * list descriptor * device E :=
  let ep_list := ep_list ep_pair_count in
  let fs_list := [INTERFACE_DESCRIPTOR ep_pair_count] in
  let hs_list := [INTERFACE_DESCRIPTOR ep_pair_count] in
  let (fs_list, hs_list) := fold_left append_endpoint ep_list (fs_list, hs_list) in
  (fs_list, hs_list,
   Device (Z.of_nat (length ep_list)) (list_byte_of_string "NOT SET") [] e).

Definition onSetup {E} (fw : framework E) (request_type request value index length : Z)
  : M (device E) unit :=
  let request_type_type := Z.land request_type (USB_TYPE_MASK c) in
  if decide (request_type_type = USB_TYPE_VENDOR c) then
    if decide (request = REQUEST_ECHO) then
      if decide (Z.land request_type (USB_DIR_IN c) = USB_DIR_IN c) then
        payload <~ gets __echo_payload ;;
        on_ep0 (ep0_write fw (slice_to payload length))
      else if decide (length <> 0) then
        data <~ on_ep0 (ep0_read fw length) ;;
        modify (fun d => Device (__ep_count d) data (printed d) (ep0 d))
      else ret tt
    else
      print [Str "functionfs: onSetup: halt"] ;;;
      on_ep0 (ep0_halt fw request_type)
  else
    Function_onSetup fw request_type request value index length.

Definition onDisable {E} : M (device E) unit := print [Str "functionfs: DISABLE"].
Definition onBind {E} : M (device E) unit := print [Str "functionfs: BIND"].
Definition onUnbind {E} : M (device E) unit := print [Str "functionfs: UNBIND"].
Definition onSuspend {E} : M (device E) unit := print [Str "functionfs: SUSPEND"].
Definition onResume {E} : M (device E) unit := print [Str "functionfs: RESUME"].
End methods.
End FunctionFSTestDevice.

(** ** [class EPThread(threading.Thread)]

    The thread of one endpoint.  [start] (called from [onEnable]) prepares
    the buffer and releases the lock [run] waits for; what is embedded of
    [run] is one pass of its outer loop, from the lock taken to the inner
    loop left, on a script of what [method(echo_buf)] does. *)

(** What a call [method(echo_buf)] does: it returns, leaving [buf] in the
    buffer ([readinto] overwrites it, [write] leaves it), or it raises. *)
Inductive method_outcome : Type :=
| MethodReturns (buf : list Z)
| MethodRaises (e : exn).

Inductive flow : Type :=
| Continue
| Break.

Module EPThread.

Record thread : Type := Thread {
  name : string;
  echo_buf : list Z;                          (* a [bytearray] *)
  check : option (list Z -> outcome bool);    (* [self.check], once [start] set it *)
  halts : nat;                                (* calls of [self.ep_file.halt()] *)
  printed : list (list atom)
}.

(** [__init__]: [self.echo_buf = bytearray(512)] *)
Definition __init__ (name : string) : thread :=
  Thread name (replicate 512 0) None 0 [].

Definition print (args : list atom) : M thread unit :=
  modify (fun t => Thread (name t) (echo_buf t) (check t) (halts t) (printed t ++ [args])).

(** [self.echo_buf[offset] = value] *)
Definition setitem (offset : nat) (value : Z) : M thread unit :=
  fun t =>
    if decide (offset < length (echo_buf t))%nat then
      if decide (0 <= value < 256) then
        (Return tt,
         Thread (name t) (<[offset := value]> (echo_buf t)) (check t) (halts t) (printed t))
      else (Raise (Exception "ValueError"), t)
    else (Raise IndexError, t).

(** [self.ep_file.halt()] *)
Definition halt : M thread unit :=
  modify (fun t => Thread (name t) (echo_buf t) (check t) (S (halts t)) (printed t)).

(** The two closures [start] may store in [self.check]: [lambda: False],
    and [check], which compares [ep_num] with [self.echo_buf[0]]. *)
Definition check_IN : list Z -> outcome bool :=
  fun _ => Return false.

Definition check_OUT (ep_num : Z) : list Z -> outcome bool :=
  fun buf =>
    match buf !! O with
    | Some b => Return (negb (bool_decide (ep_num = b)))
    | None => Raise IndexError
    end.

Section methods.
Variable c : ch9.

(** [start], for an endpoint whose descriptor has the address [ep_num]. *)
Definition start (ep_num : Z) : M thread unit :=
  n <~ gets (fun t => length (echo_buf t)) ;;
  for_each (seq 0 n) (fun offset => setitem offset ep_num) ;;;
  modify (fun t =>
    Thread (name t) (echo_buf t)
      (Some (if decide (Z.land ep_num (USB_DIR_IN c) <> 0)
             then check_IN
             else check_OUT ep_num))
      (halts t) (printed t)).
End methods.

(** [try: method(echo_buf) except IOError as exc: ...] *)
Definition attempt (o : method_outcome) : M thread flow :=
  match o with
  | MethodReturns buf =>
      modify (fun t => Thread (name t) buf (check t) (halts t) (printed t)) ;;;
      ret Continue
  | MethodRaises (OSError e) =>
      if decide (e = errno.ESHUTDOWN) then ret Break
      else if decide (e ∉ [errno.EINTR; errno.EAGAIN]) then raise (OSError e)
      else ret Continue
  | MethodRaises exc => raise exc
  end.

(** One turn of the inner [while True:]. *)
Definition turn (check : list Z -> outcome bool) (o : method_outcome) : M thread flow :=
  f <~ attempt o ;;
  match f with
  | Break => ret Break
  | Continue =>
      b <~ (fun t => (check (echo_buf t), t)) ;;
      (if b then halt else ret tt) ;;;
      ret Continue
  end.

(** The inner [while True:], on a script of what the calls of [method] do. *)
Fixpoint transfer (check : list Z -> outcome bool) (script : list method_outcome)
  (t : thread) : progress * thread :=
  match script with
  | [] => (Blocked, t)
  | o :: script' =>
      match turn check o t with
      | (Return Continue, t') => transfer check script' t'
      | (Return Break, t') => (Ended (Return tt), t')
      | (Raise e, t') => (Ended (Raise e), t')
      end
  end.

(** One pass of the outer loop of [run], once the lock is taken. *)
Definition run_pass (script : list method_outcome) (t : thread) : progress * thread :=
  match check t with
  | None => (Ended (Raise AttributeError), t)
  | Some check =>
      match print [Str (name t); Str "start"] t with
      | (Raise e, t') => (Ended (Raise e), t')
      | (Return _, t') =>
          match transfer check script t' with
          | (Ended (Return _), t'') =>
              match print [Str (name t''); Str "exit"] t'' with
              | (r, t''') => (Ended r, t''')
              end
          | r => r
          end
      end
  end.
End EPThread.
(** ** Driving the endpoints

    The framework calls [EndpointINFile.onSubmitEAGAIN] when a submission is
    rejected, [EndpointINFile.onComplete] when a write completes (what it
    returns is submitted next) and [EndpointOUTFile.onComplete] when a read
    completes; [USBCat] calls [forgetStranded]. *)

Inductive in_event : Type :=
| SubmitEAGAIN (buffer_list : buflist) (user_data : pyval)
| Completion (buffer_list : buflist) (user_data : pyval) (status : Z)
| ForgetStranded.

Definition is_transfer (ev : in_event) : bool :=
  match ev with
  | ForgetStranded => false
  | _ => true
  end.

Definition is_reject (ev : in_event) : bool :=
  match ev with
  | SubmitEAGAIN _ _ => true
  | _ => false
  end.

(** A completion whose status is not the shutdown status. *)
Definition is_live_completion (ev : in_event) : bool :=
  match ev with
  | Completion _ _ status => negb (bool_decide (status = - errno.ESHUTDOWN))
  | _ => false
  end.

(** The buffer lists whose submission the events reject, oldest first. *)
Fixpoint rejected (evs : list in_event) : list buflist :=
  match evs with
  | [] => []
  | SubmitEAGAIN b _ :: evs' => b :: rejected evs'
  | _ :: evs' => rejected evs'
  end.

Definition option_list {A} (o : option A) : list A :=
  match o with
  | Some a => [a]
  | None => []
  end.

Section driving.
Context {U : Type}.
Variables onCanSend onCannotSend : M U unit.
Variable writer : bytes -> M U unit.

Definition in_step (ev : in_event) : M (world U) (option buflist) :=
  match ev with
  | SubmitEAGAIN b ud => EndpointINFile.onSubmitEAGAIN onCannotSend b ud ;;; ret None
  | Completion b ud status => EndpointINFile.onComplete onCanSend b ud status
  | ForgetStranded => EndpointINFile.forgetStranded ;;; ret None
  end.

(** Deliver the events in turn; the result lists what [onComplete] gave
    back for resubmission, oldest first. *)
Fixpoint in_run (evs : list in_event) : M (world U) (list buflist) :=
  match evs with
  | [] => ret []
  | ev :: evs' =>
      r <~ in_step ev ;;
      rs <~ in_run evs' ;;
      ret (option_list r ++ rs)
  end.

(** Deliver read completions [(data, status)] in turn. *)
Definition out_run (evs : list (option bytes * Z)) : M (world U) unit :=
  for_each evs (fun '(data, status) => EndpointOUTFile.onComplete writer data status).
End driving.

(** A callback that always returns. *)
Definition returns {U} (m : M U unit) : Prop :=
  forall u, exists u', m u = (Return tt, u').

(** *** Spies: callbacks that only record that they were called *)

Inductive signal : Type :=
| CanSend
| CannotSend.

Definition signal_eqb (a b : signal) : bool :=
  match a, b with
  | CanSend, CanSend | CannotSend, CannotSend => true
  | _, _ => false
  end.

Definition fire (s : signal) : M (list signal) unit :=
  modify (fun fired => fired ++ [s]).

(** A sink that records what it is given. *)
Definition sink (d : bytes) : M (list bytes) unit :=
  modify (fun got => got ++ [d]).

Fixpoint count_if {A} (f : A -> bool) (l : list A) : nat :=
  match l with
  | [] => O
  | x :: l' => ((if f x then 1 else 0) + count_if f l')%nat
  end.

Definition count_signal (s : signal) (fired : list signal) : nat :=
  count_if (signal_eqb s) fired.

Definition spy_step := in_step (fire CanSend) (fire CannotSend).
Definition spy_run := in_run (fire CanSend) (fire CannotSend).

(** The queue before and after each event, with the event. *)
Fixpoint transitions (evs : list in_event) (w : world (list signal))
  : list (list buflist * in_event * list buflist) :=
  match evs with
  | [] => []
  | ev :: evs' =>
      let w' := snd (spy_step ev w) in
      (stranded_buffer_list_queue w, ev, stranded_buffer_list_queue w')
        :: transitions evs' w'
  end.

Definition is_empty {A} (l : list A) : bool :=
  match l with
  | [] => true
  | _ :: _ => false
  end.

(** The queue goes from empty to non-empty. *)
Definition is_rising (t : list buflist * in_event * list buflist) : bool :=
  let '(q, _, q') := t in is_empty q && negb (is_empty q').

(** The queue goes from non-empty to empty. *)
Definition is_falling (t : list buflist * in_event * list buflist) : bool :=
  let '(q, _, q') := t in negb (is_empty q) && is_empty q'.

(** The queue goes from non-empty to empty at a completion. *)
Definition is_falling_completion (t : list buflist * in_event * list buflist) : bool :=
  let '(_, ev, _) := t in
  is_falling t && match ev with Completion _ _ _ => true | _ => false end.

(** The signals fired by the events [evs] on the queue [q0]. *)
Definition fired (evs : list in_event) (q0 : list buflist) : list signal :=
  user (snd (spy_run evs (World [] q0 []))).

Definition edges (evs : list in_event) (q0 : list buflist) :=
  transitions evs (World [] q0 []).

(** Edge-triggering as P2 words it: one "cannot send" per transition of the
    queue from empty to non-empty and one "can send" per transition from
    non-empty to empty. *)
Definition edge_triggered (evs : list in_event) (q0 : list buflist) : Prop :=
  count_signal CannotSend (fired evs q0) = count_if is_rising (edges evs q0)
  /\ count_signal CanSend (fired evs q0) = count_if is_falling (edges evs q0).

(** The line [EndpointINFile.onComplete] traces first. *)
Definition write_line (status : Z) : list atom :=
  if decide (status < 0)
  then [Str "aio write completion error:"; Int (- status)]
  else [Str "aio write completion sent"; Int status; Str "bytes"].

(** What [SubprocessCat.__writer] hands to [sys.stdout.write] for a payload. *)
Definition written (rt : runtime) (enc : option string) (value : bytes) : pyval :=
  match enc with
  | None => PyBytes value
  | Some _ => PyStr (utf8_decode_replace rt value)
  end.

(** *** Values the examples use *)

(** A runtime for the examples: a codec that is right on ASCII only, stdin
    on descriptor 0, the event descriptor on 3, a framework with no event to
    process and a device that takes every submission. *)
Definition ascii_runtime : runtime :=
  Runtime
    (map (fun c => match Byte.of_N (Z.to_N c) with Some b => b | None => Byte.x3f end))
    (map (fun b => Z.of_N (Byte.to_N b)))
    0 3
    (ret tt)
    (fun _ => ret tt).

Definition X : buflist := [[Byte.x58]].
Definition Y : buflist := [[Byte.x59]].
Definition ok : bytes := [Byte.x6f; Byte.x6b].

Definition idle (e : option (gset Z)) (input : list pyval) : world cat :=
  World [] [] (Cat e None input []).

(** The shutdown discard as the spec words it: the completion hands nothing
    back for resubmission and leaves no trace, so the world is as before. *)
Definition silent_shutdown_discard {U} (onCanSend : M U unit) (w : world U) : Prop :=
  forall b ud,
    EndpointINFile.onComplete onCanSend b ud (- errno.ESHUTDOWN) w = (Return None, w).

(** *** The backpressure state: is stdin in the interest set of the epoll? *)

Definition armed (rt : runtime) (c : cat) : Prop :=
  exists e, __epoll c = Some e /\ stdin_fileno rt ∈ e.

Definition masked (rt : runtime) (c : cat) : Prop :=
  exists e, __epoll c = Some e /\ stdin_fileno rt ∉ e.

(** Idempotence of "can send" as the spec words it: fired while stdin is
    registered, the signal changes nothing and does not raise. *)
Definition can_send_idempotent (rt : runtime) (c : cat) : Prop :=
  armed rt c -> SubprocessCat.__onCanSend rt c = (Return tt, c).

(** A successful read completion, given its payload and status. *)
Definition received (p : bytes * Z) : option bytes * Z := (Some (fst p), snd p).

(** Text mode of the local output as C10 words it: [sys.stdout] has an
    [encoding] attribute, and then what is written is the decoded payload. *)
Definition decodes_when_attr (rt : runtime) (attr : option (option string)) : Prop :=
  attr <> None ->
  forall c value,
    stdout (snd ((SubprocessCat.__init__ attr ;;; SubprocessCat.__writer rt value) c))
    = stdout c ++ [PyStr (utf8_decode_replace rt value)].

(** The next [sys.stdin.read] gives an empty value: end of input. *)
Definition at_end_of_input (c : cat) : bool :=
  match stdin c with
  | [] => true
  | v :: _ => negb (truthy v)
  end.

(** A script on which the loop is still running, for the examples: stdin is
    ready once and the chunk read is submitted. *)
Definition one_chunk : list poll_outcome := [PollEvents [(0, 1)]].

(** "Non-empty queue implies local-input readiness is masked", on the state
    of [SubprocessCat]. *)
Definition masked_while_stranded (rt : runtime) (w : world cat) : Prop :=
  exists e, __epoll (user w) = Some e
            /\ (stranded_buffer_list_queue w <> [] -> stdin_fileno rt ∉ e).

(** ** Driving the whole function

    The events the framework hands to [USBCat] as [SubprocessCat] builds it:
    the lifecycle hooks, and the calls it makes on the outbound endpoint. *)
Inductive usb_event : Type :=
| Bind
| Unbind
| Enable
| Disable
| Suspend
| Resume
| Transfer (ev : in_event).

Definition usb_step (rt : runtime) (ev : usb_event) : M (world cat) (option buflist) :=
  match ev with
  | Bind => USBCat.onBind ;;; ret None
  | Unbind => SubprocessCat.onUnbind rt ;;; ret None
  | Enable => SubprocessCat.onEnable rt ;;; ret None
  | Disable => SubprocessCat.onDisable rt ;;; ret None
  | Suspend => USBCat.onSuspend ;;; ret None
  | Resume => USBCat.onResume ;;; ret None
  | Transfer ev => in_step (SubprocessCat.__onCanSend rt) (SubprocessCat.__stopSender rt) ev
  end.

Fixpoint usb_run (rt : runtime) (evs : list usb_event) : M (world cat) (list buflist) :=
  match evs with
  | [] => ret []
  | ev :: evs' =>
      r <~ usb_step rt ev ;;
      rs <~ usb_run rt evs' ;;
      ret (option_list r ++ rs)
  end.

(** An orderly sequence of events, given whether the function is enabled:
    an enable comes only while the function is disabled, a submission is
    rejected only while it is enabled, and nobody but the lifecycle hooks
    calls [forgetStranded]. *)
Fixpoint orderly (enabled : bool) (evs : list usb_event) : bool :=
  match evs with
  | [] => true
  | Enable :: evs' => negb enabled && orderly true evs'
  | (Disable | Unbind) :: evs' => orderly false evs'
  | (Bind | Suspend | Resume) :: evs' => orderly enabled evs'
  | Transfer (SubmitEAGAIN _ _) :: evs' => enabled && orderly enabled evs'
  | Transfer (Completion _ _ _) :: evs' => orderly enabled evs'
  | Transfer ForgetStranded :: _ => false
  end.

(** Whether the function is enabled after the events. *)
Fixpoint enabled_after (enabled : bool) (evs : list usb_event) : bool :=
  match evs with
  | [] => enabled
  | Enable :: evs' => enabled_after true evs'
  | (Disable | Unbind) :: evs' => enabled_after false evs'
  | _ :: evs' => enabled_after enabled evs'
  end.

(** The state the lifecycle keeps in order: the epoll object exists, stdin
    is masked while buffers are stranded, and while the function is disabled
    stdin is masked and nothing is stranded. *)
Definition in_order (rt : runtime) (enabled : bool) (w : world cat) : Prop :=
  exists e, __epoll (user w) = Some e
            /\ (stranded_buffer_list_queue w <> [] -> stdin_fileno rt ∉ e)
            /\ (enabled = false ->
                (stdin_fileno rt ∉ e) /\ stranded_buffer_list_queue w = []).

(** *** Values the examples of the test gadget use *)

(** The values [linux/usb/ch9.h] gives the constants. *)
Definition usb_ch9 : ch9 := Ch9 0 128 96 64 2 255.

(** A control endpoint that records what is written and halted, and whose
    reads give the chunks still to come from the host. *)
Record ep0_log : Type := Ep0Log {
  host_data : list bytes;
  ep0_written : list bytes;
  ep0_halted : list Z
}.

Definition logging_ep0 : FunctionFSTestDevice.framework ep0_log :=
  FunctionFSTestDevice.Framework
    (fun b => modify (fun e => Ep0Log (host_data e) (ep0_written e ++ [b]) (ep0_halted e)))
    (fun _ e =>
       match host_data e with
       | [] => (Return [], e)
       | d :: rest => (Return d, Ep0Log rest (ep0_written e) (ep0_halted e))
       end)
    (fun rt => modify (fun e => Ep0Log (host_data e) (ep0_written e) (ep0_halted e ++ [rt])))
    (fun _ _ _ _ _ => ret tt).

(** A script of [method] outcomes is quiet when every call returns or is
    interrupted ([EINTR]) or would block ([EAGAIN]). *)
Definition is_quiet (o : method_outcome) : bool :=
  match o with
  | MethodReturns _ => true
  | MethodRaises (OSError e) =>
      bool_decide (e = errno.EINTR) || bool_decide (e = errno.EAGAIN)
  | MethodRaises _ => false
  end.

(** The buffer after a quiet script. *)
Fixpoint last_buffer (buf : list Z) (script : list method_outcome) : list Z :=
  match script with
  | [] => buf
  | MethodReturns buf' :: script' => last_buffer buf' script'
  | _ :: script' => last_buffer buf script'
  end.

(** The calls after which the buffer does not start with [ep_num]. *)
Fixpoint foreign_turns (ep_num : Z) (buf : list Z) (script : list method_outcome) : nat :=
  match script with
  | [] => O
  | o :: script' =>
      let buf' := match o with MethodReturns b => b | _ => buf end in
      ((if bool_decide (buf' !! O = Some ep_num) then 0 else 1)
       + foreign_turns ep_num buf' script')%nat
  end.

(** What the signals leave alone, from a state [c0] of [SubprocessCat] to a
    later state [c]: the local streams, the encoding, whether the epoll
    object exists, and every registration but that of stdin. *)
Definition kept (rt : runtime) (c0 c : cat) : Prop :=
  __out_encoding c = __out_encoding c0
  /\ stdin c = stdin c0
  /\ stdout c = stdout c0
  /\ match __epoll c0, __epoll c with
     | Some e0, Some e => forall fd, fd <> stdin_fileno rt -> fd ∈ e <-> fd ∈ e0
     | None, None => True
     | _, _ => False
     end.

(** Every buffer of the script holds at least one byte. *)
Definition has_data (o : method_outcome) : bool :=
  match o with
  | MethodReturns buf => negb (is_empty buf)
  | MethodRaises _ => true
  end.

(** The exceptions the inner loop of [EPThread.run] does not handle. *)
Definition is_fatal (e : exn) : bool :=
  match e with
  | OSError n =>
      negb (bool_decide (n = errno.ESHUTDOWN) || bool_decide (n = errno.EINTR)
            || bool_decide (n = errno.EAGAIN))
  | _ => true
  end.

(** A runtime whose [processEvents] is interrupted. *)
Definition interrupted_runtime : runtime :=
  Runtime (utf8_encode_replace ascii_runtime) (utf8_decode_replace ascii_runtime)
    0 3 (raise (OSError errno.EINTR)) (fun _ => ret tt).

(** ** The two signals as [SubprocessCat] wires them *)

Lemma stopSender_unfold rt c e :
  __epoll c = Some e ->
  SubprocessCat.__stopSender rt c
  = (Return tt, Cat (Some (e ∖ {[stdin_fileno rt]})) (__out_encoding c) (stdin c) (stdout c)).
Proof.
  intros He. unfold SubprocessCat.__stopSender, try_except, SubprocessCat.with_epoll.
  rewrite He. unfold epoll.unregister.
  destruct (decide (stdin_fileno rt ∈ e)) as [Hin|Hout]; simpl.
  - reflexivity.
  - destruct (decide (errno.ENOENT <> errno.ENOENT)) as [Hne|_]; [now destruct Hne|].
    unfold ret. do 3 f_equal. set_solver.
Qed.

Lemma onCanSend_unfold rt c e :
  __epoll c = Some e ->
  SubprocessCat.__onCanSend rt c
  = if decide (stdin_fileno rt ∈ e)
    then (Raise (OSError errno.EEXIST), c)
    else (Return tt,
          Cat (Some ({[stdin_fileno rt]} ∪ e)) (__out_encoding c) (stdin c) (stdout c)).
Proof.
  intros He. unfold SubprocessCat.__onCanSend, SubprocessCat.with_epoll.
  rewrite He. unfold epoll.register.
  destruct (decide (stdin_fileno rt ∈ e)); simpl; [|reflexivity].
  destruct c; simpl in *; now subst.
Qed.

(** ** Properties of the outbound endpoint *)

Section EndpointINFile_facts.
Context {U : Type}.
Variables onCanSend onCannotSend : M U unit.

Lemma onComplete_unfold b ud status w :
  EndpointINFile.onComplete onCanSend b ud status w =
  let err := stderr w ++ [write_line status] in
  match stranded_buffer_list_queue w with
  | [] => (Return None, World err [] (user w))
  | x :: q =>
      if bool_decide (status = - errno.ESHUTDOWN)
      then (Return None, World err (x :: q) (user w))
      else
        match q with
        | [] =>
            let err' := err ++ [[Str "send queue has room, resume sending"]] in
            match onCanSend (user w) with
            | (Return _, u') => (Return (Some x), World err' [] u')
            | (Raise e, u') => (Raise e, World err' [] u')
            end
        | _ :: _ => (Return (Some x), World err q (user w))
        end
  end.
Proof.
  destruct w as [err q u]. unfold EndpointINFile.onComplete, write_line.
  unfold bind, deque.nonempty, deque.popleft, gets, trace, modify, call, ret; simpl.
  destruct (decide (status < 0)); simpl;
    destruct q as [|x [|y q]]; simpl;
    destruct (bool_decide (status = - errno.ESHUTDOWN)); simpl; try reflexivity;
    destruct (onCanSend u) as [[[]|e] u']; reflexivity.
Qed.

Lemma onSubmitEAGAIN_unfold b ud w :
  EndpointINFile.onSubmitEAGAIN onCannotSend b ud w =
  let err := stderr w ++ [[Str "send queue full, pause sending"]] in
  let q := stranded_buffer_list_queue w ++ [b] in
  let (r, u') := onCannotSend (user w) in
  (r, World err q u').
Proof.
  destruct w as [err q u]. unfold EndpointINFile.onSubmitEAGAIN.
  unfold bind, deque.append, trace, modify, call; simpl.
  destruct (onCannotSend u) as [[[]|e] u']; reflexivity.
Qed.
End EndpointINFile_facts.


Section fifo.
Context {U : Type}.
Variables onCanSend onCannotSend : M U unit.
Hypothesis onCanSend_returns : returns onCanSend.
Hypothesis onCannotSend_returns : returns onCannotSend.

Abbreviation deliver1 := (in_step onCanSend onCannotSend).
Abbreviation deliver := (in_run onCanSend onCannotSend).

Lemma in_run_app evs1 evs2 w :
  deliver (evs1 ++ evs2) w =
  (rs1 <~ deliver evs1 ;; rs2 <~ deliver evs2 ;; ret (rs1 ++ rs2)) w.
Proof.
  revert w. induction evs1 as [|ev evs1 IH]; intros w; simpl.
  - unfold bind, ret. destruct (deliver evs2 w) as [[rs|e] w']; reflexivity.
  - unfold bind, ret in *. destruct (deliver1 ev w) as [[r|e] w1]; [|reflexivity].
    rewrite IH.
    destruct (deliver evs1 w1) as [[rs1|e] w2]; [|reflexivity].
    destruct (deliver evs2 w2) as [[rs2|e] w3]; [|reflexivity].
    now rewrite app_assoc.
Qed.

Lemma live_completion_head b ud status x q w :
  status <> - errno.ESHUTDOWN ->
  stranded_buffer_list_queue w = x :: q ->
  exists w', EndpointINFile.onComplete onCanSend b ud status w = (Return (Some x), w')
             /\ stranded_buffer_list_queue w' = q.
Proof.
  intros Hst Hq. rewrite onComplete_unfold, Hq. simpl.
  rewrite bool_decide_eq_false_2 by assumption.
  destruct q as [|y q].
  - destruct (onCanSend_returns (user w)) as [u' ->]. eauto.
  - eauto.
Qed.

Lemma in_step_transfer ev w :
  is_transfer ev = true ->
  exists r w', deliver1 ev w = (Return r, w')
    /\ option_list r ++ stranded_buffer_list_queue w'
       = stranded_buffer_list_queue w ++ rejected [ev].
Proof.
  destruct ev as [b ud|b ud status|]; simpl; [intros _|intros _|discriminate].
  - unfold bind. rewrite onSubmitEAGAIN_unfold. simpl.
    destruct (onCannotSend_returns (user w)) as [u' ->]. simpl. eauto.
  - rewrite onComplete_unfold. simpl.
    destruct (stranded_buffer_list_queue w) as [|x q] eqn:Hq; [eauto|].
    destruct (bool_decide (status = - errno.ESHUTDOWN)).
    + do 2 eexists. split; [reflexivity|]. simpl. now rewrite app_nil_r.
    + destruct q as [|y q].
      * destruct (onCanSend_returns (user w)) as [u' ->].
        do 2 eexists. split; [reflexivity|]. reflexivity.
      * do 2 eexists. split; [reflexivity|]. simpl. now rewrite app_nil_r.
Qed.

Lemma rejected_cons ev evs : rejected (ev :: evs) = rejected [ev] ++ rejected evs.
Proof. destruct ev; reflexivity. Qed.

Lemma rejected_length evs :
  forallb is_reject evs = true -> length (rejected evs) = length evs.
Proof.
  induction evs as [|[b ud| |] evs IH]; simpl; try discriminate; auto.
Qed.

Lemma in_run_transfers evs : forall w,
  forallb is_transfer evs = true ->
  exists rs w', deliver evs w = (Return rs, w')
    /\ rs ++ stranded_buffer_list_queue w'
       = stranded_buffer_list_queue w ++ rejected evs.
Proof.
  induction evs as [|ev evs IH]; intros w Hev.
  - exists [], w. split; [reflexivity|]. simpl. now rewrite app_nil_r.
  - simpl in Hev. apply andb_prop in Hev as [Hev Hevs].
    destruct (in_step_transfer ev w Hev) as (r & w1 & Hstep & Hq1).
    destruct (IH w1 Hevs) as (rs & w2 & Hrun & Hq2).
    exists (option_list r ++ rs), w2. rewrite rejected_cons.
    cbn [in_run]. unfold bind, ret. rewrite Hstep, Hrun.
    split; [reflexivity|].
    rewrite <- app_assoc, Hq2, !app_assoc. now rewrite Hq1.
Qed.

Lemma in_run_rejects evs : forall w,
  forallb is_reject evs = true ->
  exists w', deliver evs w = (Return [], w')
    /\ stranded_buffer_list_queue w' = stranded_buffer_list_queue w ++ rejected evs.
Proof.
  induction evs as [|ev evs IH]; intros w Hev; simpl.
  - exists w. split; [reflexivity|]. now rewrite app_nil_r.
  - simpl in Hev. apply andb_prop in Hev as [Hev Hevs].
    destruct ev as [b ud| |]; try discriminate. simpl.
    unfold bind at 1 2. rewrite onSubmitEAGAIN_unfold. simpl.
    destruct (onCannotSend_returns (user w)) as [u' ->]. simpl.
    destruct (IH (World (stderr w ++ [[Str "send queue full, pause sending"]])
                    (stranded_buffer_list_queue w ++ [b]) u') Hevs)
      as (w2 & Hrun & Hq2).
    exists w2. unfold bind, ret. rewrite Hrun. split; [reflexivity|].
    rewrite Hq2. simpl. now rewrite <- app_assoc.
Qed.

Lemma in_run_drain evs : forall w,
  forallb is_live_completion evs = true ->
  length evs = length (stranded_buffer_list_queue w) ->
  exists w', deliver evs w = (Return (stranded_buffer_list_queue w), w')
    /\ stranded_buffer_list_queue w' = [].
Proof.
  induction evs as [|ev evs IH]; intros w Hev Hlen; simpl.
  - destruct (stranded_buffer_list_queue w) eqn:Hq; [|discriminate].
    exists w. split; [reflexivity|assumption].
  - simpl in Hev. apply andb_prop in Hev as [Hev Hevs].
    destruct ev as [|b ud status|]; try discriminate. simpl in Hev.
    apply negb_true_iff, bool_decide_eq_false in Hev.
    destruct (stranded_buffer_list_queue w) as [|x q] eqn:Hq; [discriminate|].
    destruct (live_completion_head b ud status x q w Hev Hq) as (w1 & Hstep & Hq1).
    destruct (IH w1 Hevs) as (w2 & Hrun & Hq2).
    { rewrite Hq1. simpl in Hlen. congruence. }
    exists w2. simpl. unfold bind, ret. rewrite Hstep, Hrun, Hq1.
    split; [reflexivity|assumption].
Qed.

Lemma fifo_for_returning_callbacks :
  (forall b ud status x q w,
      status <> - errno.ESHUTDOWN ->
      stranded_buffer_list_queue w = x :: q ->
      exists w', EndpointINFile.onComplete onCanSend b ud status w = (Return (Some x), w')
                 /\ stranded_buffer_list_queue w' = q)
  /\ (forall evs w,
      forallb is_transfer evs = true ->
      exists rs w', deliver evs w = (Return rs, w')
        /\ rs ++ stranded_buffer_list_queue w'
           = stranded_buffer_list_queue w ++ rejected evs)
  /\ (forall rejs comps w,
      stranded_buffer_list_queue w = [] ->
      forallb is_reject rejs = true ->
      forallb is_live_completion comps = true ->
      length comps = length rejs ->
      exists w', deliver (rejs ++ comps) w = (Return (rejected rejs), w')
        /\ stranded_buffer_list_queue w' = []).
Proof.
  split; [exact live_completion_head|]. split; [exact in_run_transfers|].
  intros rejs comps w Hq Hrej Hcomp Hlen.
  destruct (in_run_rejects rejs w Hrej) as (w1 & Hrun1 & Hq1).
  rewrite Hq in Hq1. simpl in Hq1.
  assert (Hlen' : length comps = length (stranded_buffer_list_queue w1)).
  { rewrite Hq1, Hlen. symmetry. now apply rejected_length. }
  destruct (in_run_drain comps w1 Hcomp Hlen') as (w2 & Hrun2 & Hq2).
  exists w2. rewrite in_run_app. unfold bind, ret. rewrite Hrun1, Hrun2, Hq1.
  split; [reflexivity|assumption].
Qed.
End fifo.

Lemma fire_returns s : returns (fire s).
Proof. intros u. eexists. reflexivity. Qed.

(** *** With the callbacks of [SubprocessCat] *)

Lemma wired_step rt ev w :
  masked_while_stranded rt w ->
  is_transfer ev = true ->
  exists r w',
    in_step (SubprocessCat.__onCanSend rt) (SubprocessCat.__stopSender rt) ev w = (Return r, w')
    /\ masked_while_stranded rt w'
    /\ option_list r ++ stranded_buffer_list_queue w'
       = stranded_buffer_list_queue w ++ rejected [ev].
Proof.
  intros (e & He & Hmask) Hev.
  destruct ev as [b ud|b ud status|]; [| |discriminate]; cbn [in_step].
  - unfold bind. rewrite onSubmitEAGAIN_unfold. cbv zeta.
    rewrite (stopSender_unfold rt (user w) e He).
    do 2 eexists. split; [reflexivity|]. split; [|reflexivity].
    eexists. split; [reflexivity|]. intros _. set_solver.
  - rewrite onComplete_unfold. cbv zeta.
    destruct (stranded_buffer_list_queue w) as [|x q] eqn:Hq.
    + do 2 eexists. split; [reflexivity|]. split; [|reflexivity].
      exists e. split; [assumption|]. intros H. now destruct H.
    + destruct (bool_decide (status = - errno.ESHUTDOWN)).
      * do 2 eexists. split; [reflexivity|]. split; [|simpl; now rewrite app_nil_r].
        exists e. split; [assumption|]. intros _. now apply Hmask.
      * destruct q as [|y q].
        -- rewrite (onCanSend_unfold rt (user w) e He).
           destruct (decide (stdin_fileno rt ∈ e)) as [Hin|Hout].
           { now destruct (Hmask ltac:(discriminate)). }
           do 2 eexists. split; [reflexivity|]. split; [|reflexivity].
           eexists. split; [reflexivity|]. intros H. now destruct H.
        -- do 2 eexists. split; [reflexivity|]. split; [|simpl; now rewrite app_nil_r].
           exists e. split; [assumption|]. intros _. now apply Hmask.
Qed.

Lemma wired_run rt evs : forall w,
  masked_while_stranded rt w ->
  forallb is_transfer evs = true ->
  exists rs w',
    in_run (SubprocessCat.__onCanSend rt) (SubprocessCat.__stopSender rt) evs w = (Return rs, w')
    /\ masked_while_stranded rt w'
    /\ rs ++ stranded_buffer_list_queue w'
       = stranded_buffer_list_queue w ++ rejected evs.
Proof.
  induction evs as [|ev evs IH]; intros w Hinv Hev.
  - exists [], w. split; [reflexivity|]. split; [assumption|]. simpl. now rewrite app_nil_r.
  - simpl in Hev. apply andb_prop in Hev as [Hev Hevs].
    destruct (wired_step rt ev w Hinv Hev) as (r & w1 & Hstep & Hinv1 & Hq1).
    destruct (IH w1 Hinv1 Hevs) as (rs & w2 & Hrun & Hinv2 & Hq2).
    exists (option_list r ++ rs), w2. rewrite rejected_cons.
    cbn [in_run]. unfold bind, ret. rewrite Hstep, Hrun.
    split; [reflexivity|]. split; [assumption|].
    rewrite <- app_assoc, Hq2, !app_assoc. now rewrite Hq1.
Qed.

(** C1.  FIFO order of resubmission.  For callbacks that return:
    (1) a completion whose status is not the shutdown status hands back the
    first-queued buffer list and leaves the others queued in their order;
    (2) along any sequence of rejections and completions, what was handed
    back for resubmission followed by what is still queued is the initial
    queue followed by the rejected buffer lists, in the order of their
    rejection: nothing is reordered, duplicated or dropped;
    (3) after the rejections [rejs] on an empty queue, as many completions
    without the shutdown status hand back exactly the rejected buffer
    lists, in the order they were rejected, and empty the queue.
    (4) With the callbacks of [SubprocessCat], which may raise, the same
    holds from every state where stdin is masked while the queue is not
    empty: no callback raises along rejections and completions, and that
    state invariant is kept. *)
Theorem C1_fifo_resubmission :
  (forall U (onCanSend onCannotSend : M U unit),
      returns onCanSend -> returns onCannotSend ->
      (forall b ud status x q w,
          status <> - errno.ESHUTDOWN ->
          stranded_buffer_list_queue w = x :: q ->
          exists w', EndpointINFile.onComplete onCanSend b ud status w = (Return (Some x), w')
                     /\ stranded_buffer_list_queue w' = q)
      /\ (forall evs w,
          forallb is_transfer evs = true ->
          exists rs w', in_run onCanSend onCannotSend evs w = (Return rs, w')
            /\ rs ++ stranded_buffer_list_queue w'
               = stranded_buffer_list_queue w ++ rejected evs)
      /\ (forall rejs comps w,
          stranded_buffer_list_queue w = [] ->
          forallb is_reject rejs = true ->
          forallb is_live_completion comps = true ->
          length comps = length rejs ->
          exists w', in_run onCanSend onCannotSend (rejs ++ comps) w
                     = (Return (rejected rejs), w')
            /\ stranded_buffer_list_queue w' = []))
  /\ (forall rt evs w,
      masked_while_stranded rt w ->
      forallb is_transfer evs = true ->
      exists rs w',
        in_run (SubprocessCat.__onCanSend rt) (SubprocessCat.__stopSender rt) evs w
        = (Return rs, w')
        /\ masked_while_stranded rt w'
        /\ rs ++ stranded_buffer_list_queue w'
           = stranded_buffer_list_queue w ++ rejected evs).
Proof.
  split.
  - intros U onCanSend onCannotSend Hcan Hcannot.
    exact (fifo_for_returning_callbacks onCanSend onCannotSend Hcan Hcannot).
  - exact wired_run.
Qed.

Lemma C1_fifo_resubmission_witness :
  let w := World [] [] (Cat (Some {[0; 3]}) None [] []) in
  let evs := [SubmitEAGAIN X PyNone; SubmitEAGAIN Y PyNone;
              Completion [] PyNone 5; Completion [] PyNone (-5)] in
  (returns (fire CanSend) /\ returns (fire CannotSend)
   /\ exists w',
        in_run (fire CanSend) (fire CannotSend)
          ([SubmitEAGAIN X PyNone; SubmitEAGAIN Y PyNone]
           ++ [Completion [] PyNone 5; Completion [] PyNone (-5)])
          (World [] [] [])
        = (Return [X; Y], w')
        /\ stranded_buffer_list_queue w' = [])
  /\ (masked_while_stranded ascii_runtime w
      /\ forallb is_transfer evs = true
      /\ exists rs w',
           in_run (SubprocessCat.__onCanSend ascii_runtime)
                  (SubprocessCat.__stopSender ascii_runtime) evs w
           = (Return rs, w')
           /\ masked_while_stranded ascii_runtime w'
           /\ rs ++ stranded_buffer_list_queue w'
              = stranded_buffer_list_queue w ++ rejected evs).
Proof.
  cbv zeta. split.
  - split; [apply fire_returns|]. split; [apply fire_returns|].
    apply (proj2 (proj2 (proj1 C1_fifo_resubmission _ (fire CanSend) (fire CannotSend)
                           (fire_returns CanSend) (fire_returns CannotSend))));
      reflexivity.
  - assert (Hinv : masked_while_stranded ascii_runtime
                     (World [] [] (Cat (Some {[0; 3]}) None [] []))).
    { eexists. split; [reflexivity|]. intros H. now destruct H. }
    split; [exact Hinv|]. split; [reflexivity|].
    apply (proj2 C1_fifo_resubmission ascii_runtime _ _ Hinv). reflexivity.
Defined.

(** ** The backpressure signals of the outbound endpoint *)

Lemma count_signal_snoc s fired x :
  count_signal s (fired ++ [x])
  = (count_signal s fired + (if signal_eqb s x then 1 else 0))%nat.
Proof.
  unfold count_signal. induction fired as [|y fired IH]; simpl.
  - lia.
  - rewrite IH. lia.
Qed.

Lemma spy_step_reject b ud w :
  spy_step (SubmitEAGAIN b ud) w =
  (Return None,
   World (stderr w ++ [[Str "send queue full, pause sending"]])
         (stranded_buffer_list_queue w ++ [b])
         (user w ++ [CannotSend])).
Proof.
  unfold spy_step, in_step, bind. now rewrite onSubmitEAGAIN_unfold.
Qed.

Lemma spy_step_forget w :
  spy_step ForgetStranded w = (Return None, World (stderr w) [] (user w)).
Proof. reflexivity. Qed.

Lemma spy_step_completion b ud status w :
  spy_step (Completion b ud status) w =
  let err := stderr w ++ [write_line status] in
  match stranded_buffer_list_queue w with
  | [] => (Return None, World err [] (user w))
  | x :: q =>
      if bool_decide (status = - errno.ESHUTDOWN)
      then (Return None, World err (x :: q) (user w))
      else
        match q with
        | [] => (Return (Some x),
                 World (err ++ [[Str "send queue has room, resume sending"]]) []
                       (user w ++ [CanSend]))
        | _ :: _ => (Return (Some x), World err q (user w))
        end
  end.
Proof.
  unfold spy_step, in_step. rewrite onComplete_unfold. simpl.
  destruct (stranded_buffer_list_queue w) as [|x [|y q]]; reflexivity.
Qed.

Lemma spy_step_returns ev w : exists r, spy_step ev w = (Return r, snd (spy_step ev w)).
Proof.
  destruct ev as [b ud|b ud status|].
  - rewrite spy_step_reject. eauto.
  - rewrite spy_step_completion. simpl.
    destruct (stranded_buffer_list_queue w) as [|x [|y q]];
      destruct (bool_decide (status = - errno.ESHUTDOWN)); simpl; eauto.
  - rewrite spy_step_forget. eauto.
Qed.

Lemma spy_run_cons ev evs w :
  snd (spy_run (ev :: evs) w) = snd (spy_run evs (snd (spy_step ev w))).
Proof.
  destruct (spy_step_returns ev w) as [r Hstep].
  unfold spy_run. cbn [in_run]. unfold bind, ret. fold spy_step.
  destruct (spy_step ev w) as [o w1]. simpl in *.
  injection Hstep as ->.
  destruct (in_run (fire CanSend) (fire CannotSend) evs w1) as [[rs|e] w2];
    reflexivity.
Qed.

(** What one event does to the signals and to the queue. *)
Lemma spy_step_counts ev w :
  let w1 := snd (spy_step ev w) in
  let t := (stranded_buffer_list_queue w, ev, stranded_buffer_list_queue w1) in
  count_signal CannotSend (user w1)
    = (count_signal CannotSend (user w) + (if is_reject ev then 1 else 0))%nat
  /\ count_signal CanSend (user w1)
    = (count_signal CanSend (user w) + (if is_falling_completion t then 1 else 0))%nat
  /\ (is_transfer ev = true -> is_falling t = is_falling_completion t)
  /\ (is_rising t = true -> is_reject ev = true).
Proof.
  destruct ev as [b ud|b ud status|]; cbv zeta.
  - rewrite spy_step_reject. simpl. rewrite count_signal_snoc. simpl.
    destruct (stranded_buffer_list_queue w) as [|x q]; simpl;
      rewrite ?count_signal_snoc; simpl; repeat split; auto; try lia;
      destruct (q ++ [b]); simpl; auto.
  - rewrite spy_step_completion. simpl.
    destruct (stranded_buffer_list_queue w) as [|x [|y q]];
      destruct (bool_decide (status = - errno.ESHUTDOWN)); simpl;
      rewrite ?count_signal_snoc; simpl; repeat split; auto; try lia; discriminate.
  - rewrite spy_step_forget. simpl.
    destruct (stranded_buffer_list_queue w) as [|x q]; simpl;
      repeat split; auto; try lia; discriminate.
Qed.

Lemma spy_run_counts evs : forall w,
  let w' := snd (spy_run evs w) in
  count_signal CannotSend (user w')
    = (count_signal CannotSend (user w) + count_if is_reject evs)%nat
  /\ count_signal CanSend (user w')
    = (count_signal CanSend (user w) + count_if is_falling_completion (transitions evs w))%nat
  /\ (forallb is_transfer evs = true ->
      count_if is_falling (transitions evs w)
      = count_if is_falling_completion (transitions evs w))
  /\ (count_if is_rising (transitions evs w) <= count_if is_reject evs)%nat.
Proof.
  induction evs as [|ev evs IH]; intros w; cbv zeta.
  - simpl. repeat split; lia.
  - rewrite spy_run_cons. cbn [transitions count_if forallb].
    destruct (spy_step_counts ev w) as (Hno & Hgo & Hfall & Hrise).
    destruct (IH (snd (spy_step ev w))) as (IHno & IHgo & IHfall & IHrise).
    cbv zeta in *. rewrite IHno, IHgo, Hno, Hgo.
    repeat split; try lia.
    + intros Hev. apply andb_prop in Hev as [Hev Hevs].
      rewrite (Hfall Hev), (IHfall Hevs). reflexivity.
    + destruct (is_rising _) eqn:Hr.
      * rewrite (Hrise eq_refl). lia.
      * destruct (is_reject ev); lia.
Qed.

(** C2, as the code has it.  "Cannot send" is fired once by every rejected
    submission, whether or not the queue was empty, so it is fired at least
    once per transition of the queue from empty to non-empty; "can send" is
    fired exactly once per transition of the queue from non-empty to empty
    that a completion makes, and by nothing else in the endpoint.  Along
    rejections and completions alone those are all the transitions from
    non-empty to empty; [forgetStranded] empties the queue and fires
    nothing. *)
Theorem C2_backpressure_signals evs q0 :
  count_signal CannotSend (fired evs q0) = count_if is_reject evs
  /\ (count_if is_rising (edges evs q0) <= count_signal CannotSend (fired evs q0))%nat
  /\ count_signal CanSend (fired evs q0) = count_if is_falling_completion (edges evs q0)
  /\ (forallb is_transfer evs = true ->
      count_signal CanSend (fired evs q0) = count_if is_falling (edges evs q0)).
Proof.
  unfold fired, edges.
  destruct (spy_run_counts evs (World [] q0 [])) as (Hno & Hgo & Hfall & Hrise).
  cbv zeta in *. simpl in Hno, Hgo.
  repeat split; try congruence; try lia.
  intros Hev. rewrite Hgo. symmetry. now apply Hfall.
Qed.

Lemma C2_backpressure_signals_witness :
  let evs := [SubmitEAGAIN X PyNone; SubmitEAGAIN Y PyNone;
              Completion [] PyNone 1; Completion [] PyNone 1] in
  forallb is_transfer evs = true
  /\ count_signal CanSend (fired evs []) = count_if is_falling (edges evs []).
Proof.
  cbv zeta. split; [reflexivity|].
  apply (proj2 (proj2 (proj2 (C2_backpressure_signals _ [])))). reflexivity.
Defined.

(** C2 as stated fails: the second of two rejections in a row finds the
    queue non-empty and fires "cannot send" again. *)
Lemma C2_repeated_rejection_fires_again :
  fired [SubmitEAGAIN X PyNone; SubmitEAGAIN Y PyNone] [] = [CannotSend; CannotSend]
  /\ count_if is_rising (edges [SubmitEAGAIN X PyNone; SubmitEAGAIN Y PyNone] []) = 1%nat
  /\ ~ edge_triggered [SubmitEAGAIN X PyNone; SubmitEAGAIN Y PyNone] [].
Proof.
  split; [reflexivity|]. split; [reflexivity|].
  intros [Hno _]. vm_compute in Hno. discriminate.
Qed.

(** Scenario A of the spec: three buffers of 5, 3 and 8 bytes are accepted
    and complete; nothing is queued, handed back or signalled. *)
Example scenario_A :
  spy_run [Completion [] PyNone 5; Completion [] PyNone 3; Completion [] PyNone 8]
          (World [] [] [])
  = (Return [],
     World [[Str "aio write completion sent"; Int 5; Str "bytes"];
            [Str "aio write completion sent"; Int 3; Str "bytes"];
            [Str "aio write completion sent"; Int 8; Str "bytes"]] [] []).
Proof. reflexivity. Qed.

(** Scenario B of the spec: [X] is rejected, then [Y]; the first completion
    hands back [X] and fires nothing, the second hands back [Y] and fires
    "can send".  Both rejections fired "cannot send". *)
Example scenario_B :
  let evs := [SubmitEAGAIN X PyNone; SubmitEAGAIN Y PyNone;
              Completion [] PyNone 4; Completion X PyNone 1] in
  fst (spy_run evs (World [] [] [])) = Return [X; Y]
  /\ fired evs [] = [CannotSend; CannotSend; CanSend]
  /\ map (fun t => snd t) (edges evs []) = [[X]; [X; Y]; [Y]; []].
Proof. repeat split. Qed.

(** ** A completion with the shutdown status *)

(** C3, as the code has it.  A write completion with the shutdown status
    hands nothing back for resubmission, leaves the queue as it is, also when
    it is not empty, and fires no signal; it is traced as a write completion
    error, as every negative status is. *)
Theorem C3_shutdown_completion {U} (onCanSend : M U unit) b ud w :
  EndpointINFile.onComplete onCanSend b ud (- errno.ESHUTDOWN) w
  = (Return None,
     World (stderr w ++ [[Str "aio write completion error:"; Int errno.ESHUTDOWN]])
           (stranded_buffer_list_queue w)
           (user w)).
Proof.
  rewrite onComplete_unfold. simpl.
  destruct (stranded_buffer_list_queue w); reflexivity.
Qed.

(** C3 as stated fails: the completion is traced as an error. *)
Lemma C3_shutdown_is_traced :
  fst (EndpointINFile.onComplete (fire CanSend) [] PyNone (- errno.ESHUTDOWN)
         (World [] [X] []))
  = Return None
  /\ stderr (snd (EndpointINFile.onComplete (fire CanSend) [] PyNone (- errno.ESHUTDOWN)
                    (World [] [X] [])))
     = [[Str "aio write completion error:"; Int 108]]
  /\ ~ silent_shutdown_discard (fire CanSend) (World [] [X] []).
Proof.
  split; [reflexivity|]. split; [reflexivity|].
  intros H. specialize (H [] PyNone). vm_compute in H. discriminate.
Qed.

(** ** The callbacks of [SubprocessCat] *)

(** C9, as the code has it.  "Cannot send" is idempotent: fired while stdin
    is not registered it changes nothing and does not raise (the [ENOENT] of
    [unregister] is swallowed).  "Can send" fired while stdin is registered
    changes nothing either, but it raises: [register] fails with [EEXIST]
    and [__onCanSend] lets that through. *)
Theorem C9_signals_fired_twice rt c :
  (masked rt c -> SubprocessCat.__stopSender rt c = (Return tt, c))
  /\ (armed rt c -> SubprocessCat.__onCanSend rt c = (Raise (OSError errno.EEXIST), c))
  /\ (forall e, __epoll c = Some e ->
      exists c', SubprocessCat.__stopSender rt c = (Return tt, c')
                 /\ masked rt c'
                 /\ SubprocessCat.__stopSender rt c' = (Return tt, c')).
Proof.
  split; [|split].
  - intros (e & He & Hout). rewrite (stopSender_unfold rt c e He).
    destruct c; simpl in *; subst. do 3 f_equal. set_solver.
  - intros (e & He & Hin). rewrite (onCanSend_unfold rt c e He).
    destruct (decide (stdin_fileno rt ∈ e)); [reflexivity|contradiction].
  - intros e He. eexists. split; [apply (stopSender_unfold rt c e He)|]. split.
    + eexists. split; [reflexivity|]. set_solver.
    + erewrite stopSender_unfold by reflexivity. simpl. do 3 f_equal. set_solver.
Qed.

Lemma C9_signals_fired_twice_witness :
  let masked_cat := Cat (Some {[3]}) None [] [] in
  let armed_cat := Cat (Some {[0; 3]}) None [] [] in
  masked ascii_runtime masked_cat
  /\ SubprocessCat.__stopSender ascii_runtime masked_cat = (Return tt, masked_cat)
  /\ armed ascii_runtime armed_cat
  /\ SubprocessCat.__onCanSend ascii_runtime armed_cat
     = (Raise (OSError errno.EEXIST), armed_cat).
Proof.
  cbv zeta.
  assert (Hm : masked ascii_runtime (Cat (Some {[3]}) None [] [])).
  { eexists. split; [reflexivity|]. simpl. set_solver. }
  assert (Ha : armed ascii_runtime (Cat (Some {[0; 3]}) None [] [])).
  { eexists. split; [reflexivity|]. simpl. set_solver. }
  split; [exact Hm|]. split; [exact (proj1 (C9_signals_fired_twice _ _) Hm)|].
  split; [exact Ha|]. exact (proj1 (proj2 (C9_signals_fired_twice _ _)) Ha).
Defined.

(** C9 as stated fails for "can send": with stdin registered, a second
    "can send" raises.  Two enable events in a row get there: each fires
    "can send", the first registers stdin and the second raises. *)
Lemma C9_can_send_twice_raises :
  armed ascii_runtime (Cat (Some {[0; 3]}) None [] [])
  /\ fst (SubprocessCat.__onCanSend ascii_runtime (Cat (Some {[0; 3]}) None [] []))
     = Raise (OSError 17)
  /\ ~ can_send_idempotent ascii_runtime (Cat (Some {[0; 3]}) None [] [])
  /\ fst (usb_run ascii_runtime [Enable] (World [] [] (Cat (Some {[3]}) None [] [])))
     = Return []
  /\ fst (usb_run ascii_runtime [Enable; Enable] (World [] [] (Cat (Some {[3]}) None [] [])))
     = Raise (OSError 17).
Proof.
  assert (Ha : armed ascii_runtime (Cat (Some {[0; 3]}) None [] [])).
  { eexists. split; [reflexivity|]. simpl. set_solver. }
  split; [exact Ha|]. split; [reflexivity|]. split.
  - intros H. specialize (H Ha). vm_compute in H. discriminate.
  - split; vm_compute; reflexivity.
Qed.

(** ** Disable and unbind *)

Lemma onDisable_unfold rt w e :
  __epoll (user w) = Some e ->
  SubprocessCat.onDisable rt w
  = (Return tt,
     World (stderr w ++ [[Str "onDisable"]]) []
           (Cat (Some (e ∖ {[stdin_fileno rt]})) (__out_encoding (user w))
                (stdin (user w)) (stdout (user w)))).
Proof.
  intros He. unfold SubprocessCat.onDisable, USBCat.onDisable.
  unfold bind, trace, EndpointINFile.forgetStranded, deque.clear, modify, call,
    Function.onDisable, ret. simpl.
  now rewrite (stopSender_unfold rt (user w) e He).
Qed.

Lemma onUnbind_unfold rt w e :
  __epoll (user w) = Some e ->
  SubprocessCat.onUnbind rt w
  = (Return tt,
     World (stderr w ++ [[Str "onUnbind"]]) []
           (Cat (Some (e ∖ {[stdin_fileno rt]})) (__out_encoding (user w))
                (stdin (user w)) (stdout (user w)))).
Proof.
  intros He. unfold SubprocessCat.onUnbind, USBCat.onUnbind.
  unfold bind, trace, EndpointINFile.forgetStranded, deque.clear, modify, call,
    Function.onUnbind, ret. simpl.
  now rewrite (stopSender_unfold rt (user w) e He).
Qed.

(** C4.  Once the epoll object exists (events are processed inside [run]
    only), a disable event, and likewise an unbind event, returns and leaves
    the pending queue empty and stdin out of the interest set, whatever the
    queue held and whether or not stdin was registered before. *)
Theorem C4_disable_unbind_reset rt w e :
  __epoll (user w) = Some e ->
  (exists w', SubprocessCat.onDisable rt w = (Return tt, w')
              /\ stranded_buffer_list_queue w' = []
              /\ masked rt (user w'))
  /\ (exists w', SubprocessCat.onUnbind rt w = (Return tt, w')
                 /\ stranded_buffer_list_queue w' = []
                 /\ masked rt (user w')).
Proof.
  intros He. split; eexists;
    (split; [first [apply (onDisable_unfold rt w e He) | apply (onUnbind_unfold rt w e He)]|]);
    (split; [reflexivity|]); eexists; (split; [reflexivity|]); set_solver.
Qed.

Lemma C4_disable_unbind_reset_witness :
  let w := World [] [X; Y] (Cat (Some {[0; 3]}) None [] []) in
  __epoll (user w) = Some {[0; 3]}
  /\ (exists w', SubprocessCat.onDisable ascii_runtime w = (Return tt, w')
                 /\ stranded_buffer_list_queue w' = []
                 /\ masked ascii_runtime (user w'))
  /\ (exists w', SubprocessCat.onUnbind ascii_runtime w = (Return tt, w')
                 /\ stranded_buffer_list_queue w' = []
                 /\ masked ascii_runtime (user w')).
Proof.
  cbv zeta. split; [reflexivity|].
  apply (C4_disable_unbind_reset ascii_runtime _ {[0; 3]}). reflexivity.
Defined.

(** ** The inbound endpoint *)

Section EndpointOUTFile_facts.
Context {U : Type}.
Variable writer : bytes -> M U unit.

Lemma out_onComplete_error status (w : world U) :
  EndpointOUTFile.onComplete writer None status w
  = (Return tt,
     World (stderr w ++ [[Str "aio read completion error:"; Int (- status)]])
           (stranded_buffer_list_queue w) (user w)).
Proof. reflexivity. Qed.

Lemma out_onComplete_data d status (w : world U) :
  EndpointOUTFile.onComplete writer (Some d) status w
  = call (writer d)
      (World (stderr w ++ [[Str "aio read completion received";
                           Int (Z.of_nat (length d)); Str "bytes"]])
             (stranded_buffer_list_queue w) (user w)).
Proof. reflexivity. Qed.

Lemma out_run_cons data status evs (w : world U) :
  out_run writer ((data, status) :: evs) w
  = (EndpointOUTFile.onComplete writer data status ;;; out_run writer evs) w.
Proof. reflexivity. Qed.
End EndpointOUTFile_facts.

Lemma call_sink d (w : world (list bytes)) :
  call (sink d) w
  = (Return tt, World (stderr w) (stranded_buffer_list_queue w) (user w ++ [d])).
Proof. reflexivity. Qed.

Lemma call_writer rt value (w : world cat) :
  call (SubprocessCat.__writer rt value) w
  = (Return tt,
     World (stderr w) (stranded_buffer_list_queue w)
           (Cat (__epoll (user w)) (__out_encoding (user w)) (stdin (user w))
                (stdout (user w) ++ [written rt (__out_encoding (user w)) value]))).
Proof. reflexivity. Qed.

(** Payloads reach a recording sink one call each, in order. *)
Lemma out_run_sink ps : forall w : world (list bytes),
  exists w', out_run sink (map received ps) w = (Return tt, w')
             /\ user w' = user w ++ map fst ps
             /\ stranded_buffer_list_queue w' = stranded_buffer_list_queue w.
Proof.
  induction ps as [|[d status] ps IH]; intros w.
  - exists w. simpl. now rewrite app_nil_r.
  - cbn [map]. unfold received at 1. cbn [fst snd]. rewrite out_run_cons. unfold bind.
    rewrite out_onComplete_data, call_sink.
    cbn [user stderr stranded_buffer_list_queue].
    match goal with |- context [out_run sink _ ?w1] => destruct (IH w1) as (w' & -> & Hu & Hq) end.
    exists w'. split; [reflexivity|]. rewrite Hu, Hq. simpl.
    now rewrite <- app_assoc.
Qed.

(** Payloads reach [sys.stdout.write] through [SubprocessCat.__writer] one
    call each, in order. *)
Lemma out_run_writer rt ps : forall w : world cat,
  exists w', out_run (SubprocessCat.__writer rt) (map received ps) w = (Return tt, w')
             /\ stdout (user w')
                = stdout (user w) ++ map (written rt (__out_encoding (user w))) (map fst ps)
             /\ __out_encoding (user w') = __out_encoding (user w).
Proof.
  induction ps as [|[d status] ps IH]; intros w.
  - exists w. simpl. now rewrite app_nil_r.
  - cbn [map]. unfold received at 1. cbn [fst snd]. rewrite out_run_cons. unfold bind.
    rewrite out_onComplete_data, call_writer.
    cbn [user stderr stranded_buffer_list_queue __out_encoding __epoll stdin stdout].
    match goal with |- context [out_run _ _ ?w1] => destruct (IH w1) as (w' & -> & Hu & He) end.
    exists w'. split; [reflexivity|]. rewrite Hu, He. simpl.
    now rewrite <- app_assoc.
Qed.

(** C5.  For read completions with payloads [b1..bN] and no error, the sink
    given to the endpoint is called once per completion, in completion
    order, with exactly that completion's bytes; nothing is held back or
    joined.  With [SubprocessCat.__writer] as the sink and a binary local
    output, [sys.stdout.write] receives exactly [b1..bN], one write per
    completion. *)
Theorem C5_pass_through (ps : list (bytes * Z)) :
  (forall w : world (list bytes),
      exists w', out_run sink (map received ps) w = (Return tt, w')
                 /\ user w' = user w ++ map fst ps)
  /\ (forall rt (w : world cat),
      exists w', out_run (SubprocessCat.__writer rt) (map received ps) w = (Return tt, w')
                 /\ stdout (user w')
                    = stdout (user w)
                      ++ map (written rt (__out_encoding (user w))) (map fst ps))
  /\ (forall rt (w : world cat),
      __out_encoding (user w) = None ->
      exists w', out_run (SubprocessCat.__writer rt) (map received ps) w = (Return tt, w')
                 /\ stdout (user w') = stdout (user w) ++ map PyBytes (map fst ps)).
Proof.
  split; [|split].
  - intros w. destruct (out_run_sink ps w) as (w' & H & Hu & _). eauto.
  - intros rt w. destruct (out_run_writer rt ps w) as (w' & H & Hu & _). eauto.
  - intros rt w Henc. destruct (out_run_writer rt ps w) as (w' & H & Hu & _).
    exists w'. split; [assumption|]. rewrite Hu, Henc. reflexivity.
Qed.

Lemma C5_pass_through_witness :
  let w := World [] [] (Cat (Some {[3]}) None [] []) in
  __out_encoding (user w) = None
  /\ exists w',
       out_run (SubprocessCat.__writer ascii_runtime) (map received [(ok, 0); ([], 0); (ok, 0)]) w
       = (Return tt, w')
       /\ stdout (user w') = stdout (user w) ++ map PyBytes (map fst [(ok, 0); ([], 0); (ok, 0)]).
Proof.
  cbv zeta. split; [reflexivity|].
  apply (proj2 (proj2 (C5_pass_through [(ok, 0); ([], 0); (ok, 0)]))). reflexivity.
Defined.

(** C6.  A read completion without data (an error: any status, so also a
    negative one that is not the shutdown status) returns, traces the error
    with its code, and calls no sink: the state of the sink is untouched
    whatever the sink is.  The completion after it, when it carries the
    payload [payload], calls the sink once with exactly [payload]. *)
Theorem C6_read_error_then_data {U} (writer : bytes -> M U unit) status (w : world U) :
  EndpointOUTFile.onComplete writer None status w
  = (Return tt,
     World (stderr w ++ [[Str "aio read completion error:"; Int (- status)]])
           (stranded_buffer_list_queue w) (user w))
  /\ (forall payload status',
      out_run writer [(None, status); (Some payload, status')] w
      = (call (writer payload) ;;; ret tt)
          (World (stderr w ++ [[Str "aio read completion error:"; Int (- status)];
                               [Str "aio read completion received";
                                Int (Z.of_nat (length payload)); Str "bytes"]])
                 (stranded_buffer_list_queue w) (user w)))
  /\ (forall payload status' (w0 : world (list bytes)),
      exists w', out_run sink [(None, status); (Some payload, status')] w0 = (Return tt, w')
                 /\ user w' = user w0 ++ [payload]).
Proof.
  split; [reflexivity|]. split.
  - intros payload status'. unfold out_run, for_each, bind, ret.
    rewrite out_onComplete_error, out_onComplete_data.
    cbn [stderr stranded_buffer_list_queue user]. now rewrite <- app_assoc.
  - intros payload status' w0. eexists. split; reflexivity.
Qed.

(** Scenario D of the spec: a read completion with status [-5] (EIO), then
    one with the payload ["ok"]; the sink gets ["ok"] alone. *)
Example scenario_D :
  out_run sink [(None, -5); (Some ok, 0)] (World [] [] [])
  = (Return tt,
     World [[Str "aio read completion error:"; Int 5];
            [Str "aio read completion received"; Int 2; Str "bytes"]] [] [ok]).
Proof. reflexivity. Qed.

(** ** Text and binary local streams *)

Lemma sender_unfold rt w v rest :
  stdin (user w) = v :: rest ->
  truthy v = true ->
  SubprocessCat.sender rt w
  = let w1 := World (stderr w) (stranded_buffer_list_queue w)
                    (Cat (__epoll (user w)) (__out_encoding (user w)) rest (stdout (user w))) in
    let buf := match v with
               | PyStr s => utf8_encode_replace rt s
               | PyBytes b => b
               | PyNone => []
               end in
    in_ep_submit rt [buf]
      (set_stderr (fun l => l ++ [[Str "queuing"; Int (Z.of_nat (length buf)); Str "bytes"]]) w1).
Proof.
  intros Hin Hv. unfold SubprocessCat.sender, bind, call, SubprocessCat.stdin_read.
  rewrite Hin, Hv. simpl.
  destruct v as [|b|s]; [discriminate|reflexivity|reflexivity].
Qed.

Lemma init_writer_unfold rt attr c value :
  (SubprocessCat.__init__ attr ;;; SubprocessCat.__writer rt value) c
  = (Return tt,
     Cat (__epoll c) (SubprocessCat.getattr_encoding attr) (stdin c)
         (stdout c ++ [written rt (SubprocessCat.getattr_encoding attr) value])).
Proof. reflexivity. Qed.

(** C10, as the code has it.  A chunk that local input yields as a string
    is submitted as its UTF-8 encoding (errors replaced), a chunk it yields
    as bytes is submitted as it is.  A payload is written to local output
    decoded from UTF-8 (errors replaced) when the [encoding] attribute of
    [sys.stdout] has a value other than [None], and as the very bytes when
    [sys.stdout] has no such attribute or its value is [None].  So the bytes
    pass unchanged in both directions when both streams are binary, and a
    text stream puts the codec in the way. *)
Theorem C10_transcoding rt :
  (forall w s rest,
      stdin (user w) = PyStr s :: rest -> s <> [] ->
      exists w1,
        SubprocessCat.sender rt w = in_ep_submit rt [utf8_encode_replace rt s] w1
        /\ stdin (user w1) = rest)
  /\ (forall w b rest,
      stdin (user w) = PyBytes b :: rest -> b <> [] ->
      exists w1,
        SubprocessCat.sender rt w = in_ep_submit rt [b] w1
        /\ stdin (user w1) = rest)
  /\ (forall attr c value,
      exists c',
        (SubprocessCat.__init__ attr ;;; SubprocessCat.__writer rt value) c = (Return tt, c')
        /\ stdout c'
           = stdout c ++ [match attr with
                          | Some (Some _) => PyStr (utf8_decode_replace rt value)
                          | Some None | None => PyBytes value
                          end]).
Proof.
  split; [|split].
  - intros w s rest Hin Hs. eexists. split.
    + apply (sender_unfold rt w (PyStr s) rest Hin).
      simpl. now rewrite bool_decide_eq_false_2.
    + reflexivity.
  - intros w b rest Hin Hb. eexists. split.
    + apply (sender_unfold rt w (PyBytes b) rest Hin).
      simpl. now rewrite bool_decide_eq_false_2.
    + reflexivity.
  - intros attr c value. eexists. split; [apply init_writer_unfold|].
    simpl. destruct attr as [[e|]|]; reflexivity.
Qed.

Lemma C10_transcoding_witness :
  let w := idle (Some {[0; 3]}) [PyStr [111; 107]] in
  stdin (user w) = PyStr [111; 107] :: [] /\ [111; 107] <> @nil Z
  /\ exists w1,
       SubprocessCat.sender ascii_runtime w
       = in_ep_submit ascii_runtime [utf8_encode_replace ascii_runtime [111; 107]] w1
       /\ stdin (user w1) = [].
Proof.
  cbv zeta. split; [reflexivity|]. split; [discriminate|].
  apply (proj1 (C10_transcoding ascii_runtime)); [reflexivity|discriminate].
Defined.

(** C10 as stated fails where [sys.stdout] has an [encoding] attribute whose
    value is [None]: the payload is written as bytes, not decoded. *)
Lemma C10_encoding_attribute_None :
  stdout (snd ((SubprocessCat.__init__ (Some None) ;;; SubprocessCat.__writer ascii_runtime ok)
                 (Cat (Some {[3]}) None [] [])))
  = [PyBytes ok]
  /\ ~ decodes_when_attr ascii_runtime (Some None).
Proof.
  split; [reflexivity|].
  intros H. specialize (H ltac:(discriminate) (Cat (Some {[3]}) None [] []) ok).
  vm_compute in H. discriminate.
Qed.

(** ** The event loop *)

Section run_facts.
Variable rt : runtime.

Lemma while_True_app pre tail : forall w,
  SubprocessCat.while_True rt (pre ++ tail) w
  = match SubprocessCat.while_True rt pre w with
    | (Blocked, w1) => SubprocessCat.while_True rt tail w1
    | r => r
    end.
Proof.
  induction pre as [|p pre IH]; intros w; simpl; [reflexivity|].
  destruct (SubprocessCat.iteration rt p w) as [[[]|e] w1]; [apply IH|reflexivity].
Qed.

(** The world [run] enters the loop with. *)
Lemma run_unfold script w :
  SubprocessCat.run rt script w
  = SubprocessCat.except_pass
      (SubprocessCat.while_True rt script
         (World (stderr w) (stranded_buffer_list_queue w)
                (Cat (Some ({[eventfd_fileno rt]} ∪ ∅)) (__out_encoding (user w))
                     (stdin (user w)) (stdout (user w))))).
Proof.
  unfold SubprocessCat.run, call, SubprocessCat.with_epoll, epoll.register.
  cbn [user __epoll].
  destruct (decide (eventfd_fileno rt ∈ (∅ : gset Z))) as [Hin|_]; [set_solver|].
  reflexivity.
Qed.

Lemma except_pass_Blocked r w1 :
  SubprocessCat.except_pass r = (Blocked, w1) -> r = (Blocked, w1).
Proof.
  destruct r as [[|[[]|e]] w]; simpl; try congruence.
  destruct e; simpl; congruence.
Qed.

Lemma run_app pre tail w w1 :
  SubprocessCat.run rt pre w = (Blocked, w1) ->
  SubprocessCat.run rt (pre ++ tail) w
  = SubprocessCat.except_pass (SubprocessCat.while_True rt tail w1).
Proof.
  rewrite !run_unfold. intros H. apply except_pass_Blocked in H.
  now rewrite while_True_app, H.
Qed.

Lemma run_step pre p rest w w1 e w2 :
  SubprocessCat.run rt pre w = (Blocked, w1) ->
  SubprocessCat.iteration rt p w1 = (Raise e, w2) ->
  SubprocessCat.run rt (pre ++ p :: rest) w
  = SubprocessCat.except_pass (Ended (Raise e), w2).
Proof.
  intros Hpre Hit. rewrite (run_app pre (p :: rest) w w1 Hpre). simpl.
  now rewrite Hit.
Qed.

Lemma iteration_EINTR w :
  SubprocessCat.iteration rt (PollRaise (OSError errno.EINTR)) w = (Return tt, w).
Proof.
  unfold SubprocessCat.iteration. simpl.
  destruct (decide (errno.EINTR <> errno.EINTR)) as [Hne|_]; [now destruct Hne|reflexivity].
Qed.

Lemma iteration_poll_raises exc w :
  exc <> OSError errno.EINTR ->
  SubprocessCat.iteration rt (PollRaise exc) w = (Raise exc, w).
Proof.
  intros Hexc. unfold SubprocessCat.iteration. simpl.
  destruct exc as [| |e| | | |]; try reflexivity.
  destruct (decide (e <> errno.EINTR)) as [_|Heq]; [reflexivity|].
  destruct Hexc. f_equal. destruct (decide (e = errno.EINTR)); [assumption|contradiction].
Qed.

Lemma sender_end_of_input w :
  at_end_of_input (user w) = true ->
  SubprocessCat.sender rt w
  = (Raise EOFError,
     World (stderr w) (stranded_buffer_list_queue w)
           (Cat (__epoll (user w)) (__out_encoding (user w)) (tail (stdin (user w)))
                (stdout (user w)))).
Proof.
  unfold at_end_of_input, SubprocessCat.sender, bind, call, SubprocessCat.stdin_read.
  destruct w as [err q [e enc input out]]; simpl.
  destruct input as [|v input]; simpl; [reflexivity|].
  intros Hv. apply negb_true_iff in Hv. now rewrite Hv.
Qed.

Lemma dispatch_stdin :
  stdin_fileno rt <> eventfd_fileno rt ->
  SubprocessCat.event_dispatcher_dict rt !! stdin_fileno rt = Some (SubprocessCat.sender rt).
Proof.
  intros Hne. unfold SubprocessCat.event_dispatcher_dict.
  rewrite lookup_insert_ne by congruence. apply lookup_insert_eq.
Qed.

Lemma iteration_end_of_input event more w :
  stdin_fileno rt <> eventfd_fileno rt ->
  at_end_of_input (user w) = true ->
  SubprocessCat.iteration rt (PollEvents ((stdin_fileno rt, event) :: more)) w
  = (Raise EOFError,
     World (stderr w ++ [[Fmt "epoll: fd %r got event %r" [stdin_fileno rt; event]]])
           (stranded_buffer_list_queue w)
           (Cat (__epoll (user w)) (__out_encoding (user w)) (tail (stdin (user w)))
                (stdout (user w)))).
Proof.
  intros Hne Heof. unfold SubprocessCat.iteration. simpl.
  rewrite (dispatch_stdin Hne). unfold bind, trace, modify. simpl.
  rewrite sender_end_of_input by assumption. reflexivity.
Qed.

(** C7.  While the loop is running (the script [pre] has left it blocked in
    [poll()]):
    (1) when stdin is reported ready and the read gives an empty value,
    [run] returns normally; all it traced is the dispatch line, nothing is
    written or submitted, and the queue and the interest set are as before;
    (2) a [KeyboardInterrupt] raised by the wait makes [run] return
    normally, the state as it was;
    (3) a [KeyboardInterrupt] or an [EOFError] raised anywhere in a turn of
    the loop makes [run] return normally. *)
Theorem C7_clean_termination pre w w1 :
  SubprocessCat.run rt pre w = (Blocked, w1) ->
  (forall event more rest,
      stdin_fileno rt <> eventfd_fileno rt ->
      at_end_of_input (user w1) = true ->
      exists w2,
        SubprocessCat.run rt (pre ++ PollEvents ((stdin_fileno rt, event) :: more) :: rest) w
        = (Ended (Return tt), w2)
        /\ stderr w2
           = stderr w1 ++ [[Fmt "epoll: fd %r got event %r" [stdin_fileno rt; event]]]
        /\ stdout (user w2) = stdout (user w1)
        /\ stranded_buffer_list_queue w2 = stranded_buffer_list_queue w1
        /\ __epoll (user w2) = __epoll (user w1))
  /\ (forall rest,
      SubprocessCat.run rt (pre ++ PollRaise KeyboardInterrupt :: rest) w
      = (Ended (Return tt), w1))
  /\ (forall p rest e w2,
      SubprocessCat.iteration rt p w1 = (Raise e, w2) ->
      e = KeyboardInterrupt \/ e = EOFError ->
      SubprocessCat.run rt (pre ++ p :: rest) w = (Ended (Return tt), w2)).
Proof.
  intros Hpre. split; [|split].
  - intros event more rest Hne Heof. eexists. split.
    + rewrite (run_step pre _ rest w w1 _ _ Hpre (iteration_end_of_input event more w1 Hne Heof)).
      reflexivity.
    + repeat split; reflexivity.
  - intros rest.
    rewrite (run_step pre (PollRaise KeyboardInterrupt) rest w w1 KeyboardInterrupt w1 Hpre);
      [reflexivity|].
    apply iteration_poll_raises. discriminate.
  - intros p rest e w2 Hit [-> | ->];
      rewrite (run_step pre p rest w w1 _ w2 Hpre Hit); reflexivity.
Qed.

(** C8.  (1) An [OSError] with [errno] [EINTR] raised by the wait is
    swallowed: the turn of the loop returns with the state untouched, and
    [run] goes on exactly as if that wait had not been interrupted.
    (2) Any other exception raised by the wait, apart from the
    [KeyboardInterrupt] that ends the loop cleanly ([poll()] raises no
    [EOFError]), propagates out of [run], the state as it was. *)
Theorem C8_interrupted_wait :
  (forall w, SubprocessCat.iteration rt (PollRaise (OSError errno.EINTR)) w = (Return tt, w))
  /\ (forall pre rest w,
      SubprocessCat.run rt (pre ++ PollRaise (OSError errno.EINTR) :: rest) w
      = SubprocessCat.run rt (pre ++ rest) w)
  /\ (forall pre rest w w1 exc,
      SubprocessCat.run rt pre w = (Blocked, w1) ->
      exc <> OSError errno.EINTR ->
      exc <> KeyboardInterrupt ->
      exc <> EOFError ->
      SubprocessCat.run rt (pre ++ PollRaise exc :: rest) w = (Ended (Raise exc), w1)).
Proof.
  split; [exact iteration_EINTR|]. split.
  - intros pre rest w. rewrite !run_unfold, !while_True_app.
    destruct (SubprocessCat.while_True rt pre _) as [[|o] w1]; [|reflexivity].
    cbn [SubprocessCat.while_True]. now rewrite iteration_EINTR.
  - intros pre rest w w1 exc Hpre Hintr Hki Heof.
    rewrite (run_step pre (PollRaise exc) rest w w1 exc w1 Hpre
               (iteration_poll_raises exc w1 Hintr)).
    destruct exc; simpl; congruence.
Qed.
End run_facts.

Lemma C7_clean_termination_witness :
  let w := idle None [PyBytes ok; PyBytes []] in
  let w1 := World [[Fmt "epoll: fd %r got event %r" [0; 1]];
                   [Str "queuing"; Int 2; Str "bytes"]] []
                  (Cat (Some ({[3]} ∪ ∅)) None [PyBytes []] []) in
  SubprocessCat.run ascii_runtime one_chunk w = (Blocked, w1)
  /\ stdin_fileno ascii_runtime <> eventfd_fileno ascii_runtime
  /\ at_end_of_input (user w1) = true
  /\ exists w2,
       SubprocessCat.run ascii_runtime (one_chunk ++ PollEvents [(0, 1)] :: []) w
       = (Ended (Return tt), w2)
       /\ stderr w2 = stderr w1 ++ [[Fmt "epoll: fd %r got event %r" [0; 1]]]
       /\ stdout (user w2) = stdout (user w1)
       /\ stranded_buffer_list_queue w2 = stranded_buffer_list_queue w1
       /\ __epoll (user w2) = __epoll (user w1).
Proof.
  cbv zeta.
  assert (Hpre : SubprocessCat.run ascii_runtime one_chunk (idle None [PyBytes ok; PyBytes []])
                 = (Blocked,
                    World [[Fmt "epoll: fd %r got event %r" [0; 1]];
                           [Str "queuing"; Int 2; Str "bytes"]] []
                          (Cat (Some ({[3]} ∪ ∅)) None [PyBytes []] []))).
  { reflexivity. }
  split; [exact Hpre|]. split; [discriminate|]. split; [reflexivity|].
  apply (proj1 (C7_clean_termination ascii_runtime one_chunk _ _ Hpre) 1 [] []);
    [discriminate|reflexivity].
Defined.

Lemma C8_interrupted_wait_witness :
  let w := idle None [PyBytes ok] in
  let w1 := World [[Fmt "epoll: fd %r got event %r" [0; 1]];
                   [Str "queuing"; Int 2; Str "bytes"]] []
                  (Cat (Some ({[3]} ∪ ∅)) None [] []) in
  SubprocessCat.run ascii_runtime one_chunk w = (Blocked, w1)
  /\ OSError 5 <> OSError errno.EINTR
  /\ SubprocessCat.run ascii_runtime (one_chunk ++ PollRaise (OSError 5) :: []) w
     = (Ended (Raise (OSError 5)), w1).
Proof.
  cbv zeta.
  assert (Hpre : SubprocessCat.run ascii_runtime one_chunk (idle None [PyBytes ok])
                 = (Blocked,
                    World [[Fmt "epoll: fd %r got event %r" [0; 1]];
                           [Str "queuing"; Int 2; Str "bytes"]] []
                          (Cat (Some ({[3]} ∪ ∅)) None [] []))).
  { reflexivity. }
  split; [exact Hpre|]. split; [discriminate|].
  apply (proj2 (proj2 (C8_interrupted_wait ascii_runtime)) one_chunk [] _ _ _ Hpre);
    discriminate.
Defined.

(** * Beyond the claims: the lifecycle of [USBCat] *)

Lemma onEnable_unfold rt w e :
  __epoll (user w) = Some e ->
  SubprocessCat.onEnable rt w
  = if decide (stdin_fileno rt ∈ e)
    then (Raise (OSError errno.EEXIST),
          World (stderr w ++ [[Str "onEnable"]]) (stranded_buffer_list_queue w) (user w))
    else (Return tt,
          World (stderr w ++ [[Str "onEnable"]]) (stranded_buffer_list_queue w)
                (Cat (Some ({[stdin_fileno rt]} ∪ e)) (__out_encoding (user w))
                     (stdin (user w)) (stdout (user w)))).
Proof.
  intros He. unfold SubprocessCat.onEnable, USBCat.onEnable.
  unfold bind, trace, modify, call, Function.onEnable, ret. simpl.
  rewrite (onCanSend_unfold rt (user w) e He).
  destruct (decide (stdin_fileno rt ∈ e)); reflexivity.
Qed.

(** X1.  An enable event on a masked stdin registers it, returns, and
    leaves the pending queue as it is; on a stdin that is already registered
    it raises the [EEXIST] of [register], the state unchanged but for the
    trace.  So of two enable events in a row on a masked stdin the first
    registers it and the second raises. *)
Theorem X1_enable rt w :
  (masked rt (user w) ->
   exists w', SubprocessCat.onEnable rt w = (Return tt, w')
              /\ armed rt (user w')
              /\ stranded_buffer_list_queue w' = stranded_buffer_list_queue w)
  /\ (armed rt (user w) ->
      exists w', SubprocessCat.onEnable rt w = (Raise (OSError errno.EEXIST), w')
                 /\ user w' = user w
                 /\ stranded_buffer_list_queue w' = stranded_buffer_list_queue w)
  /\ (masked rt (user w) ->
      exists w', usb_run rt [Enable; Enable] w = (Raise (OSError errno.EEXIST), w')
                 /\ armed rt (user w')
                 /\ stranded_buffer_list_queue w' = stranded_buffer_list_queue w).
Proof.
  split; [|split].
  - intros (e & He & Hout). rewrite (onEnable_unfold rt w e He).
    destruct (decide (stdin_fileno rt ∈ e)); [contradiction|].
    eexists. split; [reflexivity|]. split; [|reflexivity].
    eexists. split; [reflexivity|]. set_solver.
  - intros (e & He & Hin). rewrite (onEnable_unfold rt w e He).
    destruct (decide (stdin_fileno rt ∈ e)); [|contradiction].
    eexists. split; [reflexivity|]. split; reflexivity.
  - intros (e & He & Hout). cbn [usb_run usb_step]. unfold bind, ret.
    rewrite (onEnable_unfold rt w e He).
    destruct (decide (stdin_fileno rt ∈ e)); [contradiction|].
    erewrite onEnable_unfold by reflexivity.
    destruct (decide (stdin_fileno rt ∈ {[stdin_fileno rt]} ∪ e)) as [_|Hno]; [|set_solver].
    eexists. split; [reflexivity|]. split; [|reflexivity].
    eexists. split; [reflexivity|]. set_solver.
Qed.

Lemma X1_enable_witness :
  let w := World [] [X] (Cat (Some {[3]}) None [] []) in
  let w2 := World [] [] (Cat (Some {[0; 3]}) None [] []) in
  masked ascii_runtime (user w)
  /\ (exists w', SubprocessCat.onEnable ascii_runtime w = (Return tt, w')
                 /\ armed ascii_runtime (user w')
                 /\ stranded_buffer_list_queue w' = stranded_buffer_list_queue w)
  /\ armed ascii_runtime (user w2)
  /\ (exists w', SubprocessCat.onEnable ascii_runtime w2 = (Raise (OSError errno.EEXIST), w')
                 /\ user w' = user w2
                 /\ stranded_buffer_list_queue w' = stranded_buffer_list_queue w2)
  /\ (exists w', usb_run ascii_runtime [Enable; Enable] w = (Raise (OSError errno.EEXIST), w')
                 /\ armed ascii_runtime (user w')
                 /\ stranded_buffer_list_queue w' = stranded_buffer_list_queue w).
Proof.
  cbv zeta.
  assert (Hm : masked ascii_runtime (Cat (Some {[3]}) None [] [])).
  { eexists. split; [reflexivity|]. simpl. set_solver. }
  assert (Ha : armed ascii_runtime (Cat (Some {[0; 3]}) None [] [])).
  { eexists. split; [reflexivity|]. simpl. set_solver. }
  split; [exact Hm|].
  split; [exact (proj1 (X1_enable ascii_runtime
                          (World [] [X] (Cat (Some {[3]}) None [] []))) Hm)|].
  split; [exact Ha|].
  split; [exact (proj1 (proj2 (X1_enable ascii_runtime
                                 (World [] [] (Cat (Some {[0; 3]}) None [] [])))) Ha)|].
  exact (proj2 (proj2 (X1_enable ascii_runtime
                         (World [] [X] (Cat (Some {[3]}) None [] [])))) Hm).
Defined.

(** X2.  Once the epoll object exists, a disable (or unbind) event followed
    by an enable event always returns, whatever the state before: the
    pending queue is then empty and stdin registered.  A second disable
    right after a disable returns too and changes nothing but the trace. *)
Theorem X2_disable_then_enable rt w e :
  __epoll (user w) = Some e ->
  (exists w', (SubprocessCat.onDisable rt ;;; SubprocessCat.onEnable rt) w = (Return tt, w')
              /\ stranded_buffer_list_queue w' = []
              /\ armed rt (user w'))
  /\ (exists w', (SubprocessCat.onUnbind rt ;;; SubprocessCat.onEnable rt) w = (Return tt, w')
                 /\ stranded_buffer_list_queue w' = []
                 /\ armed rt (user w'))
  /\ (exists w1 w2,
         SubprocessCat.onDisable rt w = (Return tt, w1)
         /\ SubprocessCat.onDisable rt w1 = (Return tt, w2)
         /\ user w2 = user w1
         /\ stranded_buffer_list_queue w2 = stranded_buffer_list_queue w1).
Proof.
  intros He. split; [|split].
  - unfold bind. rewrite (onDisable_unfold rt w e He).
    erewrite onEnable_unfold by reflexivity.
    destruct (decide (stdin_fileno rt ∈ e ∖ {[stdin_fileno rt]})) as [Hin|_]; [set_solver|].
    eexists. split; [reflexivity|]. split; [reflexivity|].
    eexists. split; [reflexivity|]. set_solver.
  - unfold bind. rewrite (onUnbind_unfold rt w e He).
    erewrite onEnable_unfold by reflexivity.
    destruct (decide (stdin_fileno rt ∈ e ∖ {[stdin_fileno rt]})) as [Hin|_]; [set_solver|].
    eexists. split; [reflexivity|]. split; [reflexivity|].
    eexists. split; [reflexivity|]. set_solver.
  - do 2 eexists. split; [apply (onDisable_unfold rt w e He)|].
    split; [erewrite onDisable_unfold by reflexivity; reflexivity|].
    split; [|reflexivity]. simpl. do 2 f_equal. set_solver.
Qed.

Lemma X2_disable_then_enable_witness :
  let w := World [] [X; Y] (Cat (Some {[0; 3]}) None [] []) in
  __epoll (user w) = Some {[0; 3]}
  /\ exists w',
       (SubprocessCat.onDisable ascii_runtime ;;; SubprocessCat.onEnable ascii_runtime) w
       = (Return tt, w')
       /\ stranded_buffer_list_queue w' = []
       /\ armed ascii_runtime (user w').
Proof.
  cbv zeta. split; [reflexivity|].
  apply (proj1 (X2_disable_then_enable ascii_runtime
                  (World [] [X; Y] (Cat (Some {[0; 3]}) None [] [])) {[0; 3]} eq_refl)).
Defined.

(** X3.  An enable event does not look at the pending queue.  When it comes
    while one buffer list [x] is stranded (stdin masked), stdin is
    registered with [x] still queued, and the next completion without the
    shutdown status takes [x] off the queue, fires "can send", and raises
    the [EEXIST] of the second registration: [x] is neither handed back for
    resubmission nor left in the queue. *)
Theorem X3_enable_while_stranded rt w x b ud status :
  masked rt (user w) ->
  stranded_buffer_list_queue w = [x] ->
  status <> - errno.ESHUTDOWN ->
  exists w',
    usb_run rt [Enable; Transfer (Completion b ud status)] w
    = (Raise (OSError errno.EEXIST), w')
    /\ stranded_buffer_list_queue w' = []
    /\ armed rt (user w').
Proof.
  intros (e & He & Hout) Hq Hst. cbn [usb_run usb_step in_step]. unfold bind, ret.
  rewrite (onEnable_unfold rt w e He).
  destruct (decide (stdin_fileno rt ∈ e)); [contradiction|].
  rewrite onComplete_unfold. cbn [stranded_buffer_list_queue user stderr]. rewrite Hq.
  rewrite bool_decide_eq_false_2 by assumption.
  erewrite onCanSend_unfold by reflexivity.
  destruct (decide (stdin_fileno rt ∈ {[stdin_fileno rt]} ∪ e)) as [_|Hno]; [|set_solver].
  eexists. split; [reflexivity|]. split; [reflexivity|].
  eexists. split; [reflexivity|]. set_solver.
Qed.

Lemma X3_enable_while_stranded_witness :
  let w := World [] [X] (Cat (Some {[3]}) None [] []) in
  masked ascii_runtime (user w)
  /\ stranded_buffer_list_queue w = [X]
  /\ 7 <> - errno.ESHUTDOWN
  /\ exists w',
       usb_run ascii_runtime [Enable; Transfer (Completion [] PyNone 7)] w
       = (Raise (OSError errno.EEXIST), w')
       /\ stranded_buffer_list_queue w' = []
       /\ armed ascii_runtime (user w').
Proof.
  cbv zeta.
  assert (Hm : masked ascii_runtime (Cat (Some {[3]}) None [] [])).
  { eexists. split; [reflexivity|]. simpl. set_solver. }
  split; [exact Hm|]. split; [reflexivity|]. split; [discriminate|].
  apply (X3_enable_while_stranded ascii_runtime
           (World [] [X] (Cat (Some {[3]}) None [] [])) X [] PyNone 7 Hm);
    [reflexivity|discriminate].
Defined.

(** *** Orderly sequences of events *)

Lemma orderly_cons en ev evs :
  orderly en (ev :: evs) = true ->
  orderly en [ev] = true /\ orderly (enabled_after en [ev]) evs = true.
Proof.
  destruct ev as [| | | | | |[b ud|b ud status|]]; simpl; intros H;
    try discriminate;
    try (apply andb_prop in H as [H1 H2]);
    try (apply negb_true_iff in H1);
    subst; split; auto.
Qed.

Lemma enabled_after_cons en ev evs :
  enabled_after en (ev :: evs) = enabled_after (enabled_after en [ev]) evs.
Proof. destruct ev; reflexivity. Qed.

Lemma in_order_masked_while_stranded rt en w :
  in_order rt en w -> masked_while_stranded rt w.
Proof. intros (e & He & Hmask & _). exists e. auto. Qed.

Lemma usb_step_in_order rt en ev w :
  in_order rt en w ->
  orderly en [ev] = true ->
  exists r w', usb_step rt ev w = (Return r, w')
               /\ in_order rt (enabled_after en [ev]) w'.
Proof.
  intros Hinv Hev. pose proof Hinv as (e & He & Hmask & Hdis).
  destruct ev as [| | | | | |tev]; cbn [usb_step enabled_after].
  - do 2 eexists. split; [reflexivity|]. exists e. auto.
  - unfold bind. rewrite (onUnbind_unfold rt w e He).
    do 2 eexists. split; [reflexivity|].
    eexists. split; [reflexivity|]. split; [set_solver|]. intros _. split; [set_solver|reflexivity].
  - simpl in Hev. rewrite andb_true_r in Hev. apply negb_true_iff in Hev. subst en.
    destruct (Hdis eq_refl) as [Hout Hq].
    unfold bind. rewrite (onEnable_unfold rt w e He).
    destruct (decide (stdin_fileno rt ∈ e)); [contradiction|].
    do 2 eexists. split; [reflexivity|].
    eexists. split; [reflexivity|]. cbn [stranded_buffer_list_queue]. rewrite Hq.
    split; [intros H; now destruct H|discriminate].
  - unfold bind. rewrite (onDisable_unfold rt w e He).
    do 2 eexists. split; [reflexivity|].
    eexists. split; [reflexivity|]. split; [set_solver|]. intros _. split; [set_solver|reflexivity].
  - do 2 eexists. split; [reflexivity|]. exists e. auto.
  - do 2 eexists. split; [reflexivity|]. exists e. auto.
  - destruct tev as [b ud|b ud status|]; [| |discriminate].
    + simpl in Hev. rewrite andb_true_r in Hev. subst en.
      destruct (wired_step rt (SubmitEAGAIN b ud) w (in_order_masked_while_stranded _ _ _ Hinv)
                  eq_refl) as (r & w' & Hstep & (e' & He' & Hmask') & _).
      exists r, w'. split; [exact Hstep|]. exists e'. split; [assumption|].
      split; [assumption|discriminate].
    + destruct en.
      * destruct (wired_step rt (Completion b ud status) w
                    (in_order_masked_while_stranded _ _ _ Hinv) eq_refl)
          as (r & w' & Hstep & (e' & He' & Hmask') & _).
        exists r, w'. split; [exact Hstep|]. exists e'. split; [assumption|].
        split; [assumption|discriminate].
      * destruct (Hdis eq_refl) as [Hout Hq].
        cbn [in_step]. rewrite onComplete_unfold. cbv zeta. rewrite Hq.
        do 2 eexists. split; [reflexivity|].
        exists e. split; [assumption|]. split; [intros H; now destruct H|].
        intros _. split; [assumption|reflexivity].
Qed.

(** X4.  From a state in order, an orderly sequence of events (lifecycle
    hooks, rejected submissions, completions) never raises: no signal meets
    a stdin that is already registered.  The state stays in order: stdin is
    masked whenever buffers are stranded, and while the function is disabled
    stdin is masked and the queue is empty. *)
Theorem X4_orderly_lifecycle rt evs : forall enabled w,
  in_order rt enabled w ->
  orderly enabled evs = true ->
  exists rs w',
    usb_run rt evs w = (Return rs, w')
    /\ in_order rt (enabled_after enabled evs) w'.
Proof.
  induction evs as [|ev evs IH]; intros en w Hinv Hev.
  - exists [], w. split; [reflexivity|assumption].
  - apply orderly_cons in Hev as [Hev Hevs].
    destruct (usb_step_in_order rt en ev w Hinv Hev) as (r & w1 & Hstep & Hinv1).
    destruct (IH _ w1 Hinv1 Hevs) as (rs & w2 & Hrun & Hinv2).
    exists (option_list r ++ rs), w2. cbn [usb_run]. unfold bind, ret.
    rewrite Hstep, Hrun. split; [reflexivity|]. now rewrite enabled_after_cons.
Qed.

Lemma X4_orderly_lifecycle_witness :
  let w := World [] [] (Cat (Some {[3]}) None [] []) in
  let evs := [Bind; Enable; Transfer (SubmitEAGAIN X PyNone); Suspend; Resume;
              Transfer (Completion [] PyNone 1); Disable; Enable; Unbind] in
  in_order ascii_runtime false w
  /\ orderly false evs = true
  /\ exists rs w',
       usb_run ascii_runtime evs w = (Return rs, w')
       /\ in_order ascii_runtime (enabled_after false evs) w'.
Proof.
  cbv zeta.
  assert (Hinv : in_order ascii_runtime false (World [] [] (Cat (Some {[3]}) None [] []))).
  { eexists. split; [reflexivity|]. split; [intros H; now destruct H|].
    intros _. split; [simpl; set_solver|reflexivity]. }
  split; [exact Hinv|]. split; [reflexivity|].
  apply (X4_orderly_lifecycle ascii_runtime _ false _ Hinv). reflexivity.
Defined.

(** ** What the lifecycle and the transfers leave alone *)

Lemma kept_refl rt c : kept rt c c.
Proof.
  unfold kept. repeat split; try reflexivity. destruct (__epoll c); [tauto|exact I].
Qed.

Lemma kept_trans rt c0 c1 c2 : kept rt c0 c1 -> kept rt c1 c2 -> kept rt c0 c2.
Proof.
  unfold kept. intros (He1 & Hi1 & Ho1 & H1) (He2 & Hi2 & Ho2 & H2).
  repeat split; try congruence.
  destruct (__epoll c0), (__epoll c1), (__epoll c2); try tauto.
  intros fd Hfd. rewrite (H2 fd Hfd). now apply H1.
Qed.

Lemma onCanSend_kept rt c : kept rt c (snd (SubprocessCat.__onCanSend rt c)).
Proof.
  destruct (__epoll c) as [e|] eqn:He.
  - rewrite (onCanSend_unfold rt c e He).
    destruct (decide (stdin_fileno rt ∈ e)); [apply kept_refl|].
    unfold kept. simpl. rewrite He. repeat split; try reflexivity; set_solver.
  - unfold SubprocessCat.__onCanSend, SubprocessCat.with_epoll. rewrite He.
    apply kept_refl.
Qed.

Lemma stopSender_kept rt c : kept rt c (snd (SubprocessCat.__stopSender rt c)).
Proof.
  destruct (__epoll c) as [e|] eqn:He.
  - rewrite (stopSender_unfold rt c e He).
    unfold kept. simpl. rewrite He. repeat split; try reflexivity; set_solver.
  - unfold SubprocessCat.__stopSender, try_except, SubprocessCat.with_epoll. rewrite He.
    apply kept_refl.
Qed.

Lemma snd_bind {S A B} (m : M S A) (k : A -> M S B) s :
  snd (bind m k s)
  = match m s with
    | (Return a, s') => snd (k a s')
    | (Raise _, s') => s'
    end.
Proof. unfold bind. destruct (m s) as [[a|e] s']; reflexivity. Qed.

Lemma usb_step_kept rt ev w : kept rt (user w) (user (snd (usb_step rt ev w))).
Proof.
  destruct ev as [| | | | | |[b ud|b ud status|]]; cbn [usb_step in_step];
    try apply kept_refl.
  - unfold SubprocessCat.onUnbind, USBCat.onUnbind, bind, trace,
      EndpointINFile.forgetStranded, deque.clear, modify, call, Function.onUnbind, ret.
    simpl. pose proof (stopSender_kept rt (user w)) as H.
    destruct (SubprocessCat.__stopSender rt (user w)) as [[[]|e] c]; exact H.
  - unfold SubprocessCat.onEnable, USBCat.onEnable, bind, trace, modify, call,
      Function.onEnable, ret.
    simpl. pose proof (onCanSend_kept rt (user w)) as H.
    destruct (SubprocessCat.__onCanSend rt (user w)) as [[[]|e] c]; exact H.
  - unfold SubprocessCat.onDisable, USBCat.onDisable, bind, trace,
      EndpointINFile.forgetStranded, deque.clear, modify, call, Function.onDisable, ret.
    simpl. pose proof (stopSender_kept rt (user w)) as H.
    destruct (SubprocessCat.__stopSender rt (user w)) as [[[]|e] c]; exact H.
  - unfold bind. rewrite onSubmitEAGAIN_unfold. cbv zeta.
    pose proof (stopSender_kept rt (user w)) as H.
    destruct (SubprocessCat.__stopSender rt (user w)) as [[[]|e] c]; exact H.
  - rewrite onComplete_unfold. cbv zeta.
    destruct (stranded_buffer_list_queue w) as [|x [|y q]];
      destruct (bool_decide (status = - errno.ESHUTDOWN)); try apply kept_refl.
    pose proof (onCanSend_kept rt (user w)) as H.
    destruct (SubprocessCat.__onCanSend rt (user w)) as [[[]|e] c]; exact H.
Qed.

(** X5.  Whatever events the framework delivers, in whatever order, and
    whether or not one of them raises, the hooks and the outbound endpoint
    touch no registration but that of stdin (so the event descriptor stays
    registered), never create or drop the epoll object, and neither read
    local input nor write local output. *)
Theorem X5_signals_touch_stdin_only rt evs : forall w,
  kept rt (user w) (user (snd (usb_run rt evs w))).
Proof.
  induction evs as [|ev evs IH]; intros w.
  - apply kept_refl.
  - cbn [usb_run]. rewrite snd_bind.
    pose proof (usb_step_kept rt ev w) as Hstep.
    destruct (usb_step rt ev w) as [[r|e] w1]; [|exact Hstep].
    rewrite snd_bind. simpl in Hstep.
    pose proof (IH w1) as Hrun.
    destruct (usb_run rt evs w1) as [[rs|e] w2]; exact (kept_trans _ _ _ _ Hstep Hrun).
Qed.

(** X6.  While [__epoll] is still [None] (no [run] yet), either signal
    raises [AttributeError], which the [except IOError] of [__stopSender]
    does not swallow, and changes nothing; so a disable event raises after
    it has cleared the pending queue, and a rejected submission raises after
    it has queued its buffer list. *)
Theorem X6_signals_before_run rt w :
  __epoll (user w) = None ->
  SubprocessCat.__onCanSend rt (user w) = (Raise AttributeError, user w)
  /\ SubprocessCat.__stopSender rt (user w) = (Raise AttributeError, user w)
  /\ SubprocessCat.onDisable rt w
     = (Raise AttributeError, World (stderr w ++ [[Str "onDisable"]]) [] (user w))
  /\ (forall b ud,
      EndpointINFile.onSubmitEAGAIN (SubprocessCat.__stopSender rt) b ud w
      = (Raise AttributeError,
         World (stderr w ++ [[Str "send queue full, pause sending"]])
               (stranded_buffer_list_queue w ++ [b]) (user w))).
Proof.
  intros He.
  assert (Hcan : SubprocessCat.__onCanSend rt (user w) = (Raise AttributeError, user w)).
  { unfold SubprocessCat.__onCanSend, SubprocessCat.with_epoll. now rewrite He. }
  assert (Hstop : SubprocessCat.__stopSender rt (user w) = (Raise AttributeError, user w)).
  { unfold SubprocessCat.__stopSender, try_except, SubprocessCat.with_epoll.
    now rewrite He. }
  split; [exact Hcan|]. split; [exact Hstop|]. split.
  - unfold SubprocessCat.onDisable, USBCat.onDisable, bind, trace,
      EndpointINFile.forgetStranded, deque.clear, modify, call, Function.onDisable, ret.
    simpl. now rewrite Hstop.
  - intros b ud. rewrite onSubmitEAGAIN_unfold. cbv zeta. now rewrite Hstop.
Qed.

Lemma X6_signals_before_run_witness :
  let w := World [] [X] (Cat None None [] []) in
  __epoll (user w) = None
  /\ SubprocessCat.onDisable ascii_runtime w
     = (Raise AttributeError, World (stderr w ++ [[Str "onDisable"]]) [] (user w)).
Proof.
  cbv zeta. split; [reflexivity|].
  apply (proj1 (proj2 (proj2 (X6_signals_before_run ascii_runtime
                                (World [] [X] (Cat None None [] [])) eq_refl)))).
Defined.

(** ** Dispatch in the event loop *)

Lemma iteration_cons rt fd event more w :
  SubprocessCat.iteration rt (PollEvents ((fd, event) :: more)) w
  = let w1 := World (stderr w ++ [[Fmt "epoll: fd %r got event %r" [fd; event]]])
                    (stranded_buffer_list_queue w) (user w) in
    match SubprocessCat.event_dispatcher_dict rt !! fd with
    | Some handler =>
        match handler w1 with
        | (Return _, w2) => SubprocessCat.iteration rt (PollEvents more) w2
        | (Raise e, w2) => (Raise e, w2)
        end
    | None => (Raise (KeyError fd), w1)
    end.
Proof.
  unfold SubprocessCat.iteration. cbn [SubprocessCat.poll ret for_each].
  unfold bind at 1 2. unfold trace at 1, modify. cbv zeta.
  destruct (SubprocessCat.event_dispatcher_dict rt !! fd) as [handler|]; [|reflexivity].
  unfold set_stderr. destruct (handler _) as [[[]|e] w2]; reflexivity.
Qed.

(** X7.  Each ready descriptor of a batch is traced and dispatched, in the
    order [poll()] reported them: the event descriptor to [processEvents]
    (also should stdin have the same number), stdin to [sender], and any
    other descriptor raises [KeyError].  A handler that raises ends the
    batch there: the descriptors reported after it are not served. *)
Theorem X7_dispatch rt fd event more w :
  let w1 := World (stderr w ++ [[Fmt "epoll: fd %r got event %r" [fd; event]]])
                  (stranded_buffer_list_queue w) (user w) in
  let serve (handler : M (world cat) unit) :=
    match handler w1 with
    | (Return _, w2) => SubprocessCat.iteration rt (PollEvents more) w2
    | (Raise e, w2) => (Raise e, w2)
    end in
  (fd = eventfd_fileno rt ->
   SubprocessCat.iteration rt (PollEvents ((fd, event) :: more)) w
   = serve (processEvents rt))
  /\ (fd = stdin_fileno rt -> fd <> eventfd_fileno rt ->
      SubprocessCat.iteration rt (PollEvents ((fd, event) :: more)) w
      = serve (SubprocessCat.sender rt))
  /\ (fd <> stdin_fileno rt -> fd <> eventfd_fileno rt ->
      SubprocessCat.iteration rt (PollEvents ((fd, event) :: more)) w
      = (Raise (KeyError fd), w1)).
Proof.
  cbv zeta. split; [|split].
  - intros ->. rewrite iteration_cons. cbv zeta.
    unfold SubprocessCat.event_dispatcher_dict. now rewrite lookup_insert_eq.
  - intros -> Hne. rewrite iteration_cons. cbv zeta.
    unfold SubprocessCat.event_dispatcher_dict.
    rewrite lookup_insert_ne by congruence. now rewrite lookup_insert_eq.
  - intros Hin Hev. rewrite iteration_cons. cbv zeta.
    unfold SubprocessCat.event_dispatcher_dict.
    rewrite lookup_insert_ne by congruence. rewrite lookup_insert_ne by congruence.
    now rewrite lookup_empty.
Qed.

Lemma X7_dispatch_witness :
  let w := idle (Some {[0; 3]}) [PyBytes ok] in
  (7 <> stdin_fileno ascii_runtime /\ 7 <> eventfd_fileno ascii_runtime)
  /\ SubprocessCat.iteration ascii_runtime (PollEvents [(7, 1); (0, 1)]) w
     = (Raise (KeyError 7),
        World (stderr w ++ [[Fmt "epoll: fd %r got event %r" [7; 1]]])
              (stranded_buffer_list_queue w) (user w)).
Proof.
  cbv zeta. split; [split; discriminate|].
  apply (proj2 (proj2 (X7_dispatch ascii_runtime 7 1 [(0, 1)]
                         (idle (Some {[0; 3]}) [PyBytes ok]))));
    discriminate.
Defined.

(** X8.  The retry on [EINTR] is for the wait alone.  An exception a
    handler raises, also an [OSError] with [errno] [EINTR], is not caught by
    the [except OSError] around [poll()]: unless it is a
    [KeyboardInterrupt] or an [EOFError], it propagates out of [run], with
    the state the handler left. *)
Theorem X8_handler_errors_propagate rt pre w w1 :
  SubprocessCat.run rt pre w = (Blocked, w1) ->
  (forall p rest e w2,
      SubprocessCat.iteration rt p w1 = (Raise e, w2) ->
      e <> KeyboardInterrupt -> e <> EOFError ->
      SubprocessCat.run rt (pre ++ p :: rest) w = (Ended (Raise e), w2))
  /\ (forall event more rest errno w2,
      processEvents rt
        (World (stderr w1
                ++ [[Fmt "epoll: fd %r got event %r" [eventfd_fileno rt; event]]])
               (stranded_buffer_list_queue w1) (user w1))
      = (Raise (OSError errno), w2) ->
      SubprocessCat.run rt (pre ++ PollEvents ((eventfd_fileno rt, event) :: more) :: rest) w
      = (Ended (Raise (OSError errno)), w2)).
Proof.
  intros Hpre.
  assert (Hgen : forall p rest e w2,
             SubprocessCat.iteration rt p w1 = (Raise e, w2) ->
             e <> KeyboardInterrupt -> e <> EOFError ->
             SubprocessCat.run rt (pre ++ p :: rest) w = (Ended (Raise e), w2)).
  { intros p rest e w2 Hit Hki Heof.
    rewrite (run_step rt pre p rest w w1 e w2 Hpre Hit).
    destruct e; simpl; congruence. }
  split; [exact Hgen|].
  intros event more rest errno w2 Hpe.
  apply Hgen; [|discriminate|discriminate].
  rewrite iteration_cons. cbv zeta.
  unfold SubprocessCat.event_dispatcher_dict. rewrite lookup_insert_eq.
  now rewrite Hpe.
Qed.

Lemma X8_handler_errors_propagate_witness :
  let w := idle None [] in
  let w1 := World [] [] (Cat (Some ({[3]} ∪ ∅)) None [] []) in
  SubprocessCat.run interrupted_runtime [] w = (Blocked, w1)
  /\ exists w2,
       SubprocessCat.run interrupted_runtime ([] ++ PollEvents [(3, 1)] :: []) w
       = (Ended (Raise (OSError errno.EINTR)), w2).
Proof.
  cbv zeta.
  assert (Hpre : SubprocessCat.run interrupted_runtime [] (idle None [])
                 = (Blocked, World [] [] (Cat (Some ({[3]} ∪ ∅)) None [] []))).
  { reflexivity. }
  split; [exact Hpre|]. eexists.
  apply (proj2 (X8_handler_errors_propagate interrupted_runtime [] _ _ Hpre) 1 [] []).
  reflexivity.
Defined.

(** * Beyond the claims: the test gadget *)

(** ** The endpoint addresses and the descriptor lists of [__init__] *)

Lemma concat_pairs_length {A B} (g h : A -> B) (l : list A) :
  length (concat (map (fun x => [g x; h x]) l)) = (2 * length l)%nat.
Proof. induction l as [|x l IH]; simpl; [reflexivity|]. rewrite IH. lia. Qed.

Lemma concat_pairs_lookup {A B} (g h : A -> B) (l : list A) : forall i x,
  l !! i = Some x ->
  concat (map (fun x => [g x; h x]) l) !! (2 * i)%nat = Some (g x)
  /\ concat (map (fun x => [g x; h x]) l) !! (2 * i + 1)%nat = Some (h x).
Proof.
  induction l as [|y l IH]; intros i x Hi; [discriminate|].
  destruct i as [|i].
  - injection Hi as ->. split; reflexivity.
  - replace (2 * S i)%nat with (S (S (2 * i))) by lia.
    replace (S (S (2 * i)) + 1)%nat with (S (S (2 * i + 1))) by lia.
    simpl in Hi. exact (IH i x Hi).
Qed.

Lemma ep_list_length c ep_pair_count :
  length (FunctionFSTestDevice.ep_list c ep_pair_count) = (2 * Z.to_nat ep_pair_count)%nat.
Proof.
  unfold FunctionFSTestDevice.ep_list, range.
  replace (ep_pair_count + 1 - 1) with ep_pair_count by lia.
  now rewrite concat_pairs_length, length_seqZ.
Qed.

(** X9.  [ep_list] holds two addresses per endpoint pair, none when
    [ep_pair_count] is zero or negative: for the pair numbered [x] (from 1),
    at positions [2(x-1)] and [2(x-1)+1], the IN address [x | USB_DIR_IN]
    and then the OUT address [x | USB_DIR_OUT]. *)
Theorem X9_ep_list_layout c ep_pair_count :
  length (FunctionFSTestDevice.ep_list c ep_pair_count) = (2 * Z.to_nat ep_pair_count)%nat
  /\ (forall i : nat,
      Z.of_nat i < ep_pair_count ->
      FunctionFSTestDevice.ep_list c ep_pair_count !! (2 * i)%nat
      = Some (Z.lor (1 + Z.of_nat i) (USB_DIR_IN c))
      /\ FunctionFSTestDevice.ep_list c ep_pair_count !! (2 * i + 1)%nat
         = Some (Z.lor (1 + Z.of_nat i) (USB_DIR_OUT c))).
Proof.
  split; [apply ep_list_length|].
  unfold FunctionFSTestDevice.ep_list, range.
  replace (ep_pair_count + 1 - 1) with ep_pair_count by lia.
  - intros i Hi.
    apply (concat_pairs_lookup (fun x => Z.lor x (USB_DIR_IN c))
             (fun x => Z.lor x (USB_DIR_OUT c))).
    now apply lookup_seqZ_lt.
Qed.

Lemma X9_ep_list_layout_witness :
  Z.of_nat 14 < 15
  /\ FunctionFSTestDevice.ep_list usb_ch9 15 !! (2 * 14)%nat = Some (Z.lor (1 + Z.of_nat 14) 128)
  /\ FunctionFSTestDevice.ep_list usb_ch9 15 !! (2 * 14 + 1)%nat = Some (Z.lor (1 + Z.of_nat 14) 0).
Proof.
  split; [reflexivity|].
  apply (proj2 (X9_ep_list_layout usb_ch9 15) 14%nat). reflexivity.
Defined.

Lemma fold_append_endpoint c l : forall fs hs,
  fold_left (FunctionFSTestDevice.append_endpoint c) l (fs, hs)
  = (fs ++ map (fun a => getDescriptor_endpoint a (USB_ENDPOINT_XFER_BULK c)
                           FS_BULK_MAX_PACKET_SIZE 0) l,
     hs ++ map (fun a => getDescriptor_endpoint a (USB_ENDPOINT_XFER_BULK c)
                           HS_BULK_MAX_PACKET_SIZE 0) l).
Proof.
  induction l as [|a l IH]; intros fs hs; simpl.
  - now rewrite !app_nil_r.
  - rewrite IH, <- !app_assoc. reflexivity.
Qed.

Lemma map_lookup_Some {A B} (f : A -> B) (l : list A) : forall i x,
  l !! i = Some x -> map f l !! i = Some (f x).
Proof.
  induction l as [|y l IH]; intros i x Hi; [discriminate|].
  destruct i as [|i]; simpl in *; [now injection Hi as ->|now apply IH].
Qed.

Lemma lor_128_byte x : 0 <= x < 256 -> 0 <= Z.lor x 128 < 256.
Proof.
  intros Hx.
  assert (Hall : forallb (fun x => (0 <=? Z.lor x 128) && (Z.lor x 128 <? 256))
                   (seqZ 0 256) = true)
    by (vm_compute; reflexivity).
  rewrite forallb_forall in Hall.
  specialize (Hall x). rewrite andb_true_iff, Z.leb_le, Z.ltb_lt in Hall.
  apply Hall, list_elem_of_In, elem_of_seqZ. lia.
Qed.

Lemma ep_list_byte c n a :
  USB_DIR_IN c = 128 -> USB_DIR_OUT c = 0 -> n <= 255 ->
  a ∈ FunctionFSTestDevice.ep_list c n -> 0 <= a < 256.
Proof.
  intros Hin Hout Hn. unfold FunctionFSTestDevice.ep_list, range.
  replace (n + 1 - 1) with n by lia. rewrite Hin, Hout.
  rewrite list_elem_of_In, in_concat. intros (l & Hl & Ha).
  apply in_map_iff in Hl as (x & <- & Hx).
  apply list_elem_of_In, elem_of_seqZ in Hx.
  destruct Ha as [<-|[<-|[]]].
  - apply lor_128_byte. lia.
  - rewrite Z.lor_0_r. lia.
Qed.

(** X10.  [__init__] hands the base class two descriptor lists of
    [1 + 2 * ep_pair_count] entries: the same interface descriptor, then one
    bulk endpoint descriptor per address of [ep_list], in its order.  The
    full-speed and the high-speed list differ in [wMaxPacketSize] alone, 64
    against 512.  The object starts with [__ep_count] the number of
    addresses and the echo payload [b'NOT SET'].

    The one-byte fields hold their values modulo 256.  [bNumEndpoints] is
    the number of addresses up to 127 pairs, and 0 for 128 pairs, where
    [__ep_count] is 256.  With the direction bits of USB ([USB_DIR_IN] 0x80,
    [USB_DIR_OUT] 0), [bEndpointAddress] is the address of [ep_list] up to
    255 pairs; the IN address of the pair numbered 256 is 384 and its
    descriptors hold 128. *)
Theorem X10_descriptor_lists {E} c ep_pair_count (e : E) :
  let eps := FunctionFSTestDevice.ep_list c ep_pair_count in
  let interface n :=
    Interface (InterfaceDescriptor 0 0 n (USB_CLASS_VENDOR_SPEC c mod 256) 0 0 1) in
  let endpoint size a :=
    Endpoint (EndpointDescriptor a (USB_ENDPOINT_XFER_BULK c mod 256) size 0) in
  let bNumEndpoints := (2 * Z.max ep_pair_count 0) mod 256 in
  let fs_list := interface bNumEndpoints :: map (fun a => endpoint 64 (a mod 256)) eps in
  let hs_list := interface bNumEndpoints :: map (fun a => endpoint 512 (a mod 256)) eps in
  FunctionFSTestDevice.__init__ c ep_pair_count e
  = (fs_list, hs_list,
     FunctionFSTestDevice.Device (2 * Z.max ep_pair_count 0)
       (list_byte_of_string "NOT SET") [] e)
  /\ length fs_list = (1 + 2 * Z.to_nat ep_pair_count)%nat
  /\ length hs_list = (1 + 2 * Z.to_nat ep_pair_count)%nat
  /\ (ep_pair_count <= 127 -> bNumEndpoints = 2 * Z.max ep_pair_count 0)
  /\ (ep_pair_count = 128 ->
      bNumEndpoints = 0
      /\ FunctionFSTestDevice.__ep_count
           (FunctionFSTestDevice.__init__ c ep_pair_count e).2 = 256)
  /\ (USB_DIR_IN c = 128 -> USB_DIR_OUT c = 0 -> ep_pair_count <= 255 ->
      fs_list = interface bNumEndpoints :: map (endpoint 64) eps
      /\ hs_list = interface bNumEndpoints :: map (endpoint 512) eps)
  /\ (USB_DIR_IN c = 128 -> USB_DIR_OUT c = 0 -> 256 <= ep_pair_count ->
      eps !! 510%nat = Some 384
      /\ fs_list !! 511%nat = Some (endpoint 64 128)
      /\ hs_list !! 511%nat = Some (endpoint 512 128)).
Proof.
  cbv zeta.
  assert (Hlen : Z.of_nat (length (FunctionFSTestDevice.ep_list c ep_pair_count))
                 = 2 * Z.max ep_pair_count 0).
  { rewrite ep_list_length. lia. }
  assert (Hinit : FunctionFSTestDevice.__init__ c ep_pair_count e
    = (Interface (InterfaceDescriptor 0 0 ((2 * Z.max ep_pair_count 0) mod 256)
                    (USB_CLASS_VENDOR_SPEC c mod 256) 0 0 1)
       :: map (fun a => Endpoint (EndpointDescriptor (a mod 256)
                                    (USB_ENDPOINT_XFER_BULK c mod 256) 64 0))
            (FunctionFSTestDevice.ep_list c ep_pair_count),
       Interface (InterfaceDescriptor 0 0 ((2 * Z.max ep_pair_count 0) mod 256)
                    (USB_CLASS_VENDOR_SPEC c mod 256) 0 0 1)
       :: map (fun a => Endpoint (EndpointDescriptor (a mod 256)
                                    (USB_ENDPOINT_XFER_BULK c mod 256) 512 0))
            (FunctionFSTestDevice.ep_list c ep_pair_count),
       FunctionFSTestDevice.Device (2 * Z.max ep_pair_count 0)
         (list_byte_of_string "NOT SET") [] e)).
  { unfold FunctionFSTestDevice.__init__, FunctionFSTestDevice.INTERFACE_DESCRIPTOR.
    rewrite fold_append_endpoint, Hlen. reflexivity. }
  split; [exact Hinit|].
  split; [simpl; rewrite length_map, ep_list_length; reflexivity|].
  split; [simpl; rewrite length_map, ep_list_length; reflexivity|].
  split; [intros Hn; apply Z.mod_small; lia|].
  split.
  { intros ->. split; [reflexivity|]. rewrite Hinit. reflexivity. }
  split.
  - intros Hin Hout Hn.
    assert (Hmap : forall size,
      map (fun a => Endpoint (EndpointDescriptor (a mod 256)
                                (USB_ENDPOINT_XFER_BULK c mod 256) size 0))
        (FunctionFSTestDevice.ep_list c ep_pair_count)
      = map (fun a => Endpoint (EndpointDescriptor a
                                  (USB_ENDPOINT_XFER_BULK c mod 256) size 0))
          (FunctionFSTestDevice.ep_list c ep_pair_count)).
    { intros size. apply map_ext_in. intros a Ha. apply list_elem_of_In in Ha.
      rewrite Z.mod_small; [reflexivity|].
      exact (ep_list_byte c ep_pair_count a Hin Hout Hn Ha). }
    rewrite !Hmap. split; reflexivity.
  - intros Hin Hout Hn.
    assert (H510 : FunctionFSTestDevice.ep_list c ep_pair_count !! 510%nat = Some 384).
    { unfold FunctionFSTestDevice.ep_list, range.
      replace (ep_pair_count + 1 - 1) with ep_pair_count by lia.
      rewrite Hin, Hout.
      exact (proj1 (concat_pairs_lookup (fun x => Z.lor x 128) (fun x => Z.lor x 0)
                      (seqZ 1 ep_pair_count) 255%nat 256
                      ltac:(apply lookup_seqZ_lt; lia))). }
    split; [exact H510|].
    change 511%nat with (S 510). cbn [lookup list_lookup].
    split.
    + exact (map_lookup_Some
               (fun a => Endpoint (EndpointDescriptor (a mod 256)
                                     (USB_ENDPOINT_XFER_BULK c mod 256) 64 0))
               _ _ _ H510).
    + exact (map_lookup_Some
               (fun a => Endpoint (EndpointDescriptor (a mod 256)
                                     (USB_ENDPOINT_XFER_BULK c mod 256) 512 0))
               _ _ _ H510).
Qed.

Lemma X10_descriptor_lists_witness :
  (15 <= 127 /\ (2 * Z.max 15 0) mod 256 = 2 * Z.max 15 0)
  /\ (128 = 128 /\ (2 * Z.max 128 0) mod 256 = 0
      /\ FunctionFSTestDevice.__ep_count
           (FunctionFSTestDevice.__init__ usb_ch9 128 tt).2 = 256)
  /\ (USB_DIR_IN usb_ch9 = 128 /\ USB_DIR_OUT usb_ch9 = 0 /\ 15 <= 255
      /\ hd_error (FunctionFSTestDevice.__init__ usb_ch9 15 tt).1.1
         = Some (Interface (InterfaceDescriptor 0 0 30 255 0 0 1)))
  /\ (256 <= 256
      /\ FunctionFSTestDevice.ep_list usb_ch9 256 !! 510%nat = Some 384
      /\ (FunctionFSTestDevice.__init__ usb_ch9 256 tt).1.1 !! 511%nat
         = Some (Endpoint (EndpointDescriptor 128 2 64 0))).
Proof.
  pose proof (X10_descriptor_lists usb_ch9 15 tt) as (H15 & _ & _ & Hnum & _ & Hbyte & _).
  pose proof (X10_descriptor_lists usb_ch9 128 tt) as (_ & _ & _ & _ & H128 & _).
  pose proof (X10_descriptor_lists usb_ch9 256 tt) as (H256 & _ & _ & _ & _ & _ & Hwrap).
  split; [split; [lia|apply Hnum; lia]|].
  split; [split; [reflexivity|apply H128; reflexivity]|].
  split.
  - split; [reflexivity|]. split; [reflexivity|]. split; [lia|].
    destruct (Hbyte eq_refl eq_refl ltac:(lia)) as [Hfs _].
    rewrite H15, Hfs. reflexivity.
  - split; [lia|].
    destruct (Hwrap eq_refl eq_refl ltac:(lia)) as (H510 & Hfs & _).
    split; [exact H510|]. rewrite H256. exact Hfs.
Defined.

(** ** Distinct endpoint addresses *)

Lemma lor_128 x : 0 <= x < 128 -> Z.lor x 128 = x + 128.
Proof.
  intros Hx.
  assert (Hall : forallb (fun x => Z.lor x 128 =? x + 128) (seqZ 0 128) = true)
    by (vm_compute; reflexivity).
  rewrite forallb_forall in Hall.
  apply Z.eqb_eq, Hall, list_elem_of_In, elem_of_seqZ. lia.
Qed.

Lemma ep_list_standard c n :
  USB_DIR_IN c = 128 -> USB_DIR_OUT c = 0 -> n <= 127 ->
  FunctionFSTestDevice.ep_list c n
  = concat (map (fun x => [x + 128; x]) (seqZ 1 n)).
Proof.
  intros Hin Hout Hn. unfold FunctionFSTestDevice.ep_list, range.
  replace (n + 1 - 1) with n by lia. rewrite Hin, Hout. f_equal.
  apply map_ext_in. intros x Hx. apply list_elem_of_In, elem_of_seqZ in Hx.
  rewrite Z.lor_0_r, lor_128 by lia. reflexivity.
Qed.

Lemma elem_of_pairs a n :
  a ∈ concat (map (fun x => [x + 128; x]) (seqZ 1 n))
  <-> exists x, 1 <= x <= n /\ (a = x + 128 \/ a = x).
Proof.
  rewrite list_elem_of_In, in_concat. split.
  - intros (l & Hl & Ha). apply in_map_iff in Hl as (x & <- & Hx).
    apply list_elem_of_In, elem_of_seqZ in Hx. exists x. split; [lia|].
    destruct Ha as [<-|[<-|[]]]; auto.
  - intros (x & Hx & Ha). exists [x + 128; x]. split.
    + apply in_map_iff. exists x. split; [reflexivity|].
      apply list_elem_of_In, elem_of_seqZ. lia.
    + destruct Ha as [->| ->]; simpl; auto.
Qed.

Lemma NoDup_pairs (k : nat) :
  (k <= 127)%nat -> NoDup (concat (map (fun x => [x + 128; x]) (seqZ 1 (Z.of_nat k)))).
Proof.
  induction k as [|k IH]; intros Hk; [constructor|].
  rewrite seqZ_S, map_app, concat_app. cbn [map concat app].
  apply NoDup_app. split; [apply IH; lia|]. split.
  - intros a Ha Hin. apply elem_of_pairs in Ha as (x & Hx & Ha).
    apply list_elem_of_In in Hin. simpl in Hin. lia.
  - apply NoDup_cons. split; [|apply NoDup_singleton].
    intros Hin. apply list_elem_of_In in Hin. simpl in Hin. lia.
Qed.

(** X11.  With the direction bits of USB ([USB_DIR_IN] 0x80, [USB_DIR_OUT]
    0), up to 127 endpoint pairs get addresses that are all different: the
    pair numbered [x] gets [x + 128] and [x].  From 128 pairs on they are
    not: the pair numbered 128 gets the address 128 twice. *)
Theorem X11_distinct_addresses c ep_pair_count :
  USB_DIR_IN c = 128 ->
  USB_DIR_OUT c = 0 ->
  (ep_pair_count <= 127 ->
   FunctionFSTestDevice.ep_list c ep_pair_count
   = concat (map (fun x => [x + 128; x]) (seqZ 1 ep_pair_count))
   /\ NoDup (FunctionFSTestDevice.ep_list c ep_pair_count))
  /\ (128 <= ep_pair_count ->
      FunctionFSTestDevice.ep_list c ep_pair_count !! 254%nat = Some 128
      /\ FunctionFSTestDevice.ep_list c ep_pair_count !! 255%nat = Some 128
      /\ ~ NoDup (FunctionFSTestDevice.ep_list c ep_pair_count)).
Proof.
  intros Hin Hout. split.
  - intros Hn. split; [now apply ep_list_standard|].
    rewrite (ep_list_standard c ep_pair_count Hin Hout Hn).
    destruct (decide (0 <= ep_pair_count)) as [Hpos|Hneg].
    + rewrite <- (Z2Nat.id ep_pair_count Hpos). apply NoDup_pairs. lia.
    + rewrite seqZ_nil by lia. constructor.
  - intros Hn.
    assert (H254 : FunctionFSTestDevice.ep_list c ep_pair_count !! 254%nat = Some 128
                   /\ FunctionFSTestDevice.ep_list c ep_pair_count !! 255%nat = Some 128).
    { unfold FunctionFSTestDevice.ep_list, range.
      replace (ep_pair_count + 1 - 1) with ep_pair_count by lia.
      rewrite Hin, Hout.
      exact (concat_pairs_lookup (fun x => Z.lor x 128) (fun x => Z.lor x 0)
               (seqZ 1 ep_pair_count) 127%nat 128 ltac:(apply lookup_seqZ_lt; lia)). }
    destruct H254 as [H254 H255]. split; [exact H254|]. split; [exact H255|].
    intros Hnd. rewrite NoDup_alt in Hnd.
    specialize (Hnd 254%nat 255%nat 128 H254 H255). discriminate.
Qed.

Lemma X11_distinct_addresses_witness :
  USB_DIR_IN usb_ch9 = 128 /\ USB_DIR_OUT usb_ch9 = 0 /\ 15 <= 127
  /\ FunctionFSTestDevice.ep_list usb_ch9 15
     = concat (map (fun x => [x + 128; x]) (seqZ 1 15))
  /\ NoDup (FunctionFSTestDevice.ep_list usb_ch9 15).
Proof.
  split; [reflexivity|]. split; [reflexivity|]. split; [lia|].
  apply (proj1 (X11_distinct_addresses usb_ch9 15 eq_refl eq_refl)). lia.
Defined.

(** ** Vendor requests: the echo payload *)

Section onSetup_facts.
Context {E : Type}.
Variable c : ch9.
Variable REQUEST_ECHO : Z.
Variable fw : FunctionFSTestDevice.framework E.

Lemma slice_to_all {A} (l : list A) n : Z.of_nat (length l) <= n -> slice_to l n = l.
Proof.
  intros Hn. unfold slice_to. destruct (decide (0 <= n)); [|lia].
  apply take_ge. lia.
Qed.

Lemma onSetup_echo_out request_type value index length d data e1 :
  Z.land request_type (USB_TYPE_MASK c) = USB_TYPE_VENDOR c ->
  Z.land request_type (USB_DIR_IN c) <> USB_DIR_IN c ->
  length <> 0 ->
  FunctionFSTestDevice.ep0_read fw length (FunctionFSTestDevice.ep0 d) = (Return data, e1) ->
  FunctionFSTestDevice.onSetup c REQUEST_ECHO fw request_type REQUEST_ECHO value index length d
  = (Return tt,
     FunctionFSTestDevice.Device (FunctionFSTestDevice.__ep_count d) data
       (FunctionFSTestDevice.printed d) e1).
Proof.
  intros Hv Hout Hlen Hread. unfold FunctionFSTestDevice.onSetup.
  destruct (decide _) as [_|Hno]; [|contradiction].
  destruct (decide (REQUEST_ECHO = REQUEST_ECHO)) as [_|Hno]; [|contradiction].
  destruct (decide (Z.land request_type (USB_DIR_IN c) = USB_DIR_IN c)); [contradiction|].
  destruct (decide (length <> 0)); [|contradiction].
  unfold bind, FunctionFSTestDevice.on_ep0, modify. now rewrite Hread.
Qed.

Lemma onSetup_echo_in request_type value index length d :
  Z.land request_type (USB_TYPE_MASK c) = USB_TYPE_VENDOR c ->
  Z.land request_type (USB_DIR_IN c) = USB_DIR_IN c ->
  FunctionFSTestDevice.onSetup c REQUEST_ECHO fw request_type REQUEST_ECHO value index length d
  = FunctionFSTestDevice.on_ep0
      (FunctionFSTestDevice.ep0_write fw
         (slice_to (FunctionFSTestDevice.__echo_payload d) length)) d.
Proof.
  intros Hv Hin. unfold FunctionFSTestDevice.onSetup.
  destruct (decide _) as [_|Hno]; [|contradiction].
  destruct (decide (REQUEST_ECHO = REQUEST_ECHO)) as [_|Hno]; [|contradiction].
  destruct (decide (Z.land request_type (USB_DIR_IN c) = USB_DIR_IN c)); [|contradiction].
  reflexivity.
Qed.

(** X12.  The echo round trip.  After a vendor echo request in the OUT
    direction with a non-zero length, for which [ep0.read] gave [data], a
    vendor echo request in the IN direction writes [data[:length]] to
    [ep0], the whole of [data] when [length] is not less than its size, and
    leaves the payload in place for the next one. *)
Theorem X12_echo_round_trip rt_out rt_in value index length value' index' length' d data e1 :
  Z.land rt_out (USB_TYPE_MASK c) = USB_TYPE_VENDOR c ->
  Z.land rt_out (USB_DIR_IN c) <> USB_DIR_IN c ->
  length <> 0 ->
  FunctionFSTestDevice.ep0_read fw length (FunctionFSTestDevice.ep0 d) = (Return data, e1) ->
  Z.land rt_in (USB_TYPE_MASK c) = USB_TYPE_VENDOR c ->
  Z.land rt_in (USB_DIR_IN c) = USB_DIR_IN c ->
  let stored :=
    FunctionFSTestDevice.Device (FunctionFSTestDevice.__ep_count d) data
      (FunctionFSTestDevice.printed d) e1 in
  (FunctionFSTestDevice.onSetup c REQUEST_ECHO fw rt_out REQUEST_ECHO value index length ;;;
   FunctionFSTestDevice.onSetup c REQUEST_ECHO fw rt_in REQUEST_ECHO value' index' length') d
  = FunctionFSTestDevice.on_ep0
      (FunctionFSTestDevice.ep0_write fw (slice_to data length')) stored
  /\ FunctionFSTestDevice.__echo_payload
       (snd (FunctionFSTestDevice.on_ep0
               (FunctionFSTestDevice.ep0_write fw (slice_to data length')) stored))
     = data
  /\ (Z.of_nat (List.length data) <= length' -> slice_to data length' = data).
Proof.
  intros Hv Hout Hlen Hread Hv' Hin. cbv zeta. split; [|split].
  - unfold bind at 1.
    rewrite (onSetup_echo_out rt_out value index length d data e1 Hv Hout Hlen Hread).
    now rewrite (onSetup_echo_in rt_in value' index' length' _ Hv' Hin).
  - unfold FunctionFSTestDevice.on_ep0. simpl.
    destruct (FunctionFSTestDevice.ep0_write fw _ e1); reflexivity.
  - apply slice_to_all.
Qed.

(** X13.  Only a vendor echo request in the OUT direction with a non-zero
    length changes the echo payload.  Every other vendor request leaves it
    as it is, whatever [ep0] does: an echo in the IN direction only writes,
    an echo in the OUT direction with length zero does nothing at all, and a
    vendor request that is no echo halts [ep0] with the request type. *)
Theorem X13_payload_kept request_type request value index length d :
  Z.land request_type (USB_TYPE_MASK c) = USB_TYPE_VENDOR c ->
  (request = REQUEST_ECHO ->
   Z.land request_type (USB_DIR_IN c) <> USB_DIR_IN c ->
   length = 0) ->
  FunctionFSTestDevice.__echo_payload
    (snd (FunctionFSTestDevice.onSetup c REQUEST_ECHO fw request_type request value index
            length d))
  = FunctionFSTestDevice.__echo_payload d
  /\ (request = REQUEST_ECHO ->
      Z.land request_type (USB_DIR_IN c) <> USB_DIR_IN c ->
      FunctionFSTestDevice.onSetup c REQUEST_ECHO fw request_type request value index length d
      = (Return tt, d))
  /\ (request <> REQUEST_ECHO ->
      FunctionFSTestDevice.onSetup c REQUEST_ECHO fw request_type request value index length d
      = FunctionFSTestDevice.on_ep0 (FunctionFSTestDevice.ep0_halt fw request_type)
          (FunctionFSTestDevice.Device (FunctionFSTestDevice.__ep_count d)
             (FunctionFSTestDevice.__echo_payload d)
             (FunctionFSTestDevice.printed d ++ [[Str "functionfs: onSetup: halt"]])
             (FunctionFSTestDevice.ep0 d))).
Proof.
  intros Hv Hzero. unfold FunctionFSTestDevice.onSetup.
  destruct (decide _) as [_|Hno]; [|contradiction].
  destruct (decide (request = REQUEST_ECHO)) as [Hecho|Hother].
  - destruct (decide (Z.land request_type (USB_DIR_IN c) = USB_DIR_IN c)) as [Hin|Hout].
    + split; [|split; [contradiction|contradiction]].
      unfold bind, gets, FunctionFSTestDevice.on_ep0. simpl.
      destruct (FunctionFSTestDevice.ep0_write fw _ _); reflexivity.
    + rewrite (Hzero Hecho Hout).
      destruct (decide (0 <> 0)) as [Hne|_]; [now destruct Hne|].
      split; [reflexivity|]. split; [reflexivity|contradiction].
  - split; [|split; [contradiction|reflexivity]].
    unfold bind, FunctionFSTestDevice.print, modify, FunctionFSTestDevice.on_ep0. simpl.
    destruct (FunctionFSTestDevice.ep0_halt fw _ _); reflexivity.
Qed.
End onSetup_facts.

Lemma X12_echo_round_trip_witness :
  let d := FunctionFSTestDevice.Device 30 (list_byte_of_string "NOT SET") []
             (Ep0Log [ok] [] []) in
  (Z.land 64 (USB_TYPE_MASK usb_ch9) = USB_TYPE_VENDOR usb_ch9
   /\ Z.land 64 (USB_DIR_IN usb_ch9) <> USB_DIR_IN usb_ch9
   /\ 2 <> 0
   /\ FunctionFSTestDevice.ep0_read logging_ep0 2 (FunctionFSTestDevice.ep0 d)
      = (Return ok, Ep0Log [] [] [])
   /\ Z.land 192 (USB_TYPE_MASK usb_ch9) = USB_TYPE_VENDOR usb_ch9
   /\ Z.land 192 (USB_DIR_IN usb_ch9) = USB_DIR_IN usb_ch9)
  /\ (FunctionFSTestDevice.onSetup usb_ch9 1 logging_ep0 64 1 0 0 2 ;;;
      FunctionFSTestDevice.onSetup usb_ch9 1 logging_ep0 192 1 0 0 1) d
     = (Return tt, FunctionFSTestDevice.Device 30 ok [] (Ep0Log [] [[Byte.x6f]] [])).
Proof.
  cbv zeta. split; [repeat split; discriminate|].
  rewrite (proj1 (X12_echo_round_trip usb_ch9 1 logging_ep0 64 192 0 0 2 0 0 1
                    (FunctionFSTestDevice.Device 30 (list_byte_of_string "NOT SET") []
                       (Ep0Log [ok] [] []))
                    ok (Ep0Log [] [] [])
                    eq_refl ltac:(discriminate) ltac:(discriminate) eq_refl eq_refl eq_refl)).
  reflexivity.
Defined.

Lemma X13_payload_kept_witness :
  let d := FunctionFSTestDevice.Device 30 ok [] (Ep0Log [[Byte.x58]] [] []) in
  Z.land 64 (USB_TYPE_MASK usb_ch9) = USB_TYPE_VENDOR usb_ch9
  /\ FunctionFSTestDevice.onSetup usb_ch9 1 logging_ep0 64 1 0 0 0 d = (Return tt, d)
  /\ FunctionFSTestDevice.__echo_payload
       (snd (FunctionFSTestDevice.onSetup usb_ch9 1 logging_ep0 64 9 0 0 5 d))
     = ok.
Proof.
  cbv zeta. split; [reflexivity|]. split.
  - apply (proj1 (proj2 (X13_payload_kept usb_ch9 1 logging_ep0 64 1 0 0 0
                           (FunctionFSTestDevice.Device 30 ok [] (Ep0Log [[Byte.x58]] [] []))
                           eq_refl (fun _ _ => eq_refl))));
      [reflexivity|discriminate].
  - apply (proj1 (X13_payload_kept usb_ch9 1 logging_ep0 64 9 0 0 5
                    (FunctionFSTestDevice.Device 30 ok [] (Ep0Log [[Byte.x58]] [] []))
                    eq_refl ltac:(discriminate))).
Defined.

(** ** The endpoint threads *)

Lemma fill_buffer v m : forall k rest t,
  0 <= v < 256 ->
  EPThread.echo_buf t = replicate k v ++ rest ->
  length rest = m ->
  for_each (seq k m) (fun offset => EPThread.setitem offset v) t
  = (Return tt,
     EPThread.Thread (EPThread.name t) (replicate (k + m) v) (EPThread.check t)
       (EPThread.halts t) (EPThread.printed t)).
Proof.
  induction m as [|m IH]; intros k rest t Hv Hbuf Hlen.
  - destruct rest; [|discriminate]. rewrite app_nil_r in Hbuf.
    destruct t; simpl in *. subst. now rewrite Nat.add_0_r.
  - destruct rest as [|x rest]; [discriminate|]. injection Hlen as Hlen.
    cbn [seq for_each]. unfold bind at 1. unfold EPThread.setitem at 1.
    rewrite Hbuf.
    destruct (decide (k < length (replicate k v ++ x :: rest))%nat) as [_|Hno].
    2:{ rewrite length_app, length_replicate in Hno. simpl in Hno. lia. }
    destruct (decide (0 <= v < 256)) as [_|Hno]; [|contradiction].
    rewrite (IH (S k) rest); [| assumption | | assumption].
    + replace (k + S m)%nat with (S (k + m)) by lia. reflexivity.
    + cbn [EPThread.echo_buf].
      rewrite insert_app_r_alt by (rewrite length_replicate; lia).
      rewrite length_replicate, Nat.sub_diag, replicate_S_end, <- app_assoc.
      reflexivity.
Qed.

(** X14.  [start] fills the whole buffer with the endpoint address, its
    size unchanged, and installs the check of the endpoint's direction; the
    freshly filled buffer passes the check of an OUT endpoint, so nothing is
    halted before foreign data arrives.  An address that is no byte value
    raises [ValueError] at the first assignment and leaves the buffer as it
    was. *)
Theorem X14_start c ep_num t :
  (0 <= ep_num < 256 ->
   EPThread.start c ep_num t
   = (Return tt,
      EPThread.Thread (EPThread.name t)
        (replicate (length (EPThread.echo_buf t)) ep_num)
        (Some (if decide (Z.land ep_num (USB_DIR_IN c) <> 0)
               then EPThread.check_IN else EPThread.check_OUT ep_num))
        (EPThread.halts t) (EPThread.printed t))
   /\ (EPThread.echo_buf t <> [] ->
       EPThread.check_OUT ep_num (replicate (length (EPThread.echo_buf t)) ep_num)
       = Return false))
  /\ (~ 0 <= ep_num < 256 -> EPThread.echo_buf t <> [] ->
      EPThread.start c ep_num t = (Raise (Exception "ValueError"), t)).
Proof.
  split.
  - intros Hv. split.
    + unfold EPThread.start, bind at 1, gets. unfold bind.
      rewrite (fill_buffer ep_num (length (EPThread.echo_buf t)) 0 (EPThread.echo_buf t) t Hv
                 eq_refl eq_refl).
      reflexivity.
    + intros Hne. destruct (EPThread.echo_buf t) as [|x buf]; [contradiction|].
      unfold EPThread.check_OUT. simpl. now rewrite bool_decide_eq_true_2.
  - intros Hv Hne. unfold EPThread.start, bind at 1, gets. unfold bind.
    destruct (EPThread.echo_buf t) as [|x buf] eqn:Hbuf; [contradiction|].
    cbn [length seq for_each]. unfold bind. unfold EPThread.setitem at 1. rewrite Hbuf.
    destruct (decide (0 < length (x :: buf))%nat) as [_|Hno]; [|simpl in Hno; lia].
    destruct (decide (0 <= ep_num < 256)); [contradiction|reflexivity].
Qed.

Lemma X14_start_witness :
  0 <= 1 < 256
  /\ EPThread.start usb_ch9 1 (EPThread.__init__ "ep2")
     = (Return tt,
        EPThread.Thread "ep2" (replicate 512 1) (Some (EPThread.check_OUT 1)) 0 [])
  /\ ~ 0 <= 300 < 256
  /\ EPThread.start usb_ch9 300 (EPThread.__init__ "ep2")
     = (Raise (Exception "ValueError"), EPThread.__init__ "ep2").
Proof.
  split; [lia|]. split.
  - exact (proj1 (proj1 (X14_start usb_ch9 1 (EPThread.__init__ "ep2")) ltac:(lia))).
  - split; [lia|].
    apply (proj2 (X14_start usb_ch9 300 (EPThread.__init__ "ep2"))); [lia|discriminate].
Defined.

Lemma transfer_app check pre rest : forall t,
  EPThread.transfer check (pre ++ rest) t
  = match EPThread.transfer check pre t with
    | (Blocked, t1) => EPThread.transfer check rest t1
    | r => r
    end.
Proof.
  induction pre as [|o pre IH]; intros t; simpl; [reflexivity|].
  destruct (EPThread.turn check o t) as [[[|]|e] t1]; [apply IH|reflexivity|reflexivity].
Qed.

Lemma turn_shutdown check t :
  EPThread.turn check (MethodRaises (OSError errno.ESHUTDOWN)) t = (Return Break, t).
Proof. reflexivity. Qed.

Lemma turn_fatal check e t :
  is_fatal e = true ->
  EPThread.turn check (MethodRaises e) t = (Raise e, t).
Proof.
  intros He. unfold EPThread.turn, bind, EPThread.attempt.
  destruct e as [| |n| | | |]; try reflexivity. simpl in He.
  apply negb_true_iff, orb_false_iff in He as [He Hagain].
  apply orb_false_iff in He as [Hshut Hintr].
  apply bool_decide_eq_false in Hshut, Hintr, Hagain.
  destruct (decide (n = errno.ESHUTDOWN)); [contradiction|].
  destruct (decide (n ∉ [errno.EINTR; errno.EAGAIN])) as [_|Hin]; [reflexivity|].
  exfalso. apply Hin. intros Hn. apply list_elem_of_In in Hn. simpl in Hn.
  destruct Hn as [Hn|[Hn|[]]]; symmetry in Hn; contradiction.
Qed.

Lemma attempt_quiet o t :
  is_quiet o = true ->
  EPThread.attempt o t
  = (Return Continue,
     EPThread.Thread (EPThread.name t)
       match o with MethodReturns b => b | _ => EPThread.echo_buf t end
       (EPThread.check t) (EPThread.halts t) (EPThread.printed t)).
Proof.
  intros Hq. destruct o as [buf|e]; [reflexivity|].
  destruct e as [| |n| | | |]; try discriminate. simpl in Hq.
  unfold EPThread.attempt.
  assert (Hn : n = errno.EINTR \/ n = errno.EAGAIN).
  { apply orb_true_iff in Hq as [H|H]; apply bool_decide_eq_true in H; auto. }
  destruct (decide (n = errno.ESHUTDOWN)) as [Hs|_].
  { destruct Hn; subst; discriminate. }
  destruct (decide (n ∉ [errno.EINTR; errno.EAGAIN])) as [Hout|_].
  { exfalso. apply Hout, list_elem_of_In. simpl. destruct Hn; subst; auto. }
  destruct t; reflexivity.
Qed.

Lemma transfer_quiet check : forall script t0,
  (forall buf, buf = EPThread.echo_buf t0 \/ In (MethodReturns buf) script ->
               exists b, check buf = Return b) ->
  forallb is_quiet script = true ->
  exists t1, EPThread.transfer check script t0 = (Blocked, t1)
             /\ EPThread.printed t1 = EPThread.printed t0.
Proof.
  induction script as [|o script IH]; intros t0 Hret Hq; [eauto|].
  simpl in Hq. apply andb_prop in Hq as [Ho Hq].
  assert (Hbuf : match o with MethodReturns b => b | _ => EPThread.echo_buf t0 end
                 = EPThread.echo_buf t0
                 \/ In (MethodReturns
                          match o with MethodReturns b => b | _ => EPThread.echo_buf t0 end)
                      (o :: script)).
  { destruct o as [b|e]; [right; left; reflexivity|left; reflexivity]. }
  cbn [EPThread.transfer]. unfold EPThread.turn, bind.
  rewrite (attempt_quiet o t0 Ho). cbn [EPThread.echo_buf].
  destruct (Hret _ Hbuf) as [b ->].
  destruct b; simpl;
    match goal with |- context [EPThread.transfer check script ?t'] =>
      destruct (IH t') as (t1 & -> & Hp);
        [intros buf [->|Hin]; apply Hret; [exact Hbuf|right; right; exact Hin]
        |exact Hq
        |exists t1; split; [reflexivity|exact Hp]]
    end.
Qed.

(** X15.  How a pass of [run] goes on and ends, with either check [start]
    installs: that of an IN endpoint, or that of an OUT endpoint while the
    buffer holds at least one byte.  Calls that return, are interrupted
    ([EINTR]) or would block ([EAGAIN]) keep the loop going.  The first
    [ESHUTDOWN] ends the pass normally: no check and no halt follow it, what
    the script holds after it is not called, and "exit" is printed.  Any
    other exception ends the pass as a raise, with no "exit". *)
Theorem X15_pass_ends check pre t :
  (check = EPThread.check_IN
   \/ exists ep_num, check = EPThread.check_OUT ep_num
                     /\ forallb has_data pre = true
                     /\ EPThread.echo_buf t <> []) ->
  forallb is_quiet pre = true ->
  EPThread.check t = Some check ->
  exists t1,
    EPThread.run_pass pre t = (Blocked, t1)
    /\ EPThread.printed t1 = EPThread.printed t ++ [[Str (EPThread.name t); Str "start"]]
    /\ (forall rest,
        EPThread.run_pass (pre ++ MethodRaises (OSError errno.ESHUTDOWN) :: rest) t
        = (Ended (Return tt),
           EPThread.Thread (EPThread.name t1) (EPThread.echo_buf t1) (EPThread.check t1)
             (EPThread.halts t1)
             (EPThread.printed t1 ++ [[Str (EPThread.name t1); Str "exit"]])))
    /\ (forall e rest,
        is_fatal e = true ->
        EPThread.run_pass (pre ++ MethodRaises e :: rest) t = (Ended (Raise e), t1)).
Proof.
  intros Hkind Hquiet Hcheck.
  assert (Hret : forall buf, buf = EPThread.echo_buf t \/ In (MethodReturns buf) pre ->
                             exists b, check buf = Return b).
  { intros buf Hbuf. destruct Hkind as [->|(ep_num & -> & Hdata & Hne)].
    - exists false. reflexivity.
    - assert (Hnil : buf <> []).
      { destruct Hbuf as [->|Hin]; [exact Hne|].
        rewrite forallb_forall in Hdata. specialize (Hdata _ Hin).
        simpl in Hdata. now destruct buf. }
      destruct buf as [|x buf]; [contradiction|].
      eexists. reflexivity. }
  unfold EPThread.run_pass. rewrite Hcheck.
  unfold EPThread.print, modify.
  match goal with |- context [EPThread.transfer check pre ?t'] =>
    destruct (transfer_quiet check pre t' Hret Hquiet) as (t1 & Hpre & Hp);
      set (t0 := t') in * end.
  exists t1. rewrite Hpre. split; [reflexivity|]. split; [exact Hp|]. split.
  - intros rest. rewrite transfer_app, Hpre. cbn [EPThread.transfer].
    rewrite turn_shutdown. reflexivity.
  - intros e rest He. rewrite transfer_app, Hpre. cbn [EPThread.transfer].
    now rewrite (turn_fatal check e t1 He).
Qed.

Lemma X15_pass_ends_witness :
  let t_in := EPThread.Thread "ep1" (replicate 512 129) (Some EPThread.check_IN) 0 [] in
  let pre_in := [MethodReturns (replicate 512 129); MethodRaises (OSError errno.EINTR)] in
  let t_out := EPThread.Thread "ep2" [1; 1] (Some (EPThread.check_OUT 1)) 0 [] in
  let pre_out := [MethodReturns [1; 7]; MethodReturns [9; 7];
                  MethodRaises (OSError errno.EAGAIN)] in
  (forallb is_quiet pre_in = true
   /\ EPThread.check t_in = Some EPThread.check_IN
   /\ EPThread.run_pass (pre_in ++ MethodRaises (OSError errno.ESHUTDOWN)
                                  :: [MethodReturns (replicate 512 0)]) t_in
      = (Ended (Return tt),
         EPThread.Thread "ep1" (replicate 512 129) (Some EPThread.check_IN) 0
           [[Str "ep1"; Str "start"]; [Str "ep1"; Str "exit"]]))
  /\ (forallb has_data pre_out = true
      /\ EPThread.echo_buf t_out <> []
      /\ forallb is_quiet pre_out = true
      /\ EPThread.check t_out = Some (EPThread.check_OUT 1)
      /\ EPThread.run_pass (pre_out ++ MethodRaises (OSError errno.ESHUTDOWN)
                                      :: [MethodReturns [1; 0]]) t_out
         = (Ended (Return tt),
            EPThread.Thread "ep2" [9; 7] (Some (EPThread.check_OUT 1)) 2
              [[Str "ep2"; Str "start"]; [Str "ep2"; Str "exit"]])
      /\ is_fatal (OSError 5) = true
      /\ EPThread.run_pass (pre_out ++ MethodRaises (OSError 5) :: []) t_out
         = (Ended (Raise (OSError 5)),
            EPThread.Thread "ep2" [9; 7] (Some (EPThread.check_OUT 1)) 2
              [[Str "ep2"; Str "start"]])).
Proof.
  cbv zeta. split.
  - split; [reflexivity|]. split; [reflexivity|].
    destruct (X15_pass_ends EPThread.check_IN
                [MethodReturns (replicate 512 129); MethodRaises (OSError errno.EINTR)]
                (EPThread.Thread "ep1" (replicate 512 129) (Some EPThread.check_IN) 0 [])
                (or_introl eq_refl) eq_refl eq_refl) as (t1 & Hpre & _ & Hshut & _).
    rewrite Hshut. injection Hpre as <-. reflexivity.
  - assert (Hne : EPThread.echo_buf
                    (EPThread.Thread "ep2" [1; 1] (Some (EPThread.check_OUT 1)) 0 []) <> [])
      by discriminate.
    split; [reflexivity|]. split; [exact Hne|]. split; [reflexivity|].
    split; [reflexivity|].
    destruct (X15_pass_ends (EPThread.check_OUT 1)
                [MethodReturns [1; 7]; MethodReturns [9; 7];
                 MethodRaises (OSError errno.EAGAIN)]
                (EPThread.Thread "ep2" [1; 1] (Some (EPThread.check_OUT 1)) 0 [])
                (or_intror (ex_intro _ 1 (conj eq_refl (conj eq_refl Hne))))
                eq_refl eq_refl) as (t1 & Hpre & _ & Hshut & Hfatal).
    rewrite Hshut, (Hfatal (OSError 5) [] eq_refl). injection Hpre as <-.
    split; [reflexivity|]. split; reflexivity.
Defined.

Lemma attempt_halts o t :
  EPThread.halts (snd (EPThread.attempt o t)) = EPThread.halts t.
Proof.
  destruct o as [buf|[| |n| | | |]]; try reflexivity.
  unfold EPThread.attempt.
  destruct (decide (n = errno.ESHUTDOWN)); [reflexivity|].
  destruct (decide (n ∉ [errno.EINTR; errno.EAGAIN])); reflexivity.
Qed.

Lemma turn_IN_halts o t :
  EPThread.halts (snd (EPThread.turn EPThread.check_IN o t)) = EPThread.halts t.
Proof.
  unfold EPThread.turn, bind. pose proof (attempt_halts o t) as H.
  destruct (EPThread.attempt o t) as [[[|]|e] t1]; exact H.
Qed.

Lemma turn_OUT_quiet ep_num o t :
  is_quiet o = true ->
  has_data o = true ->
  EPThread.echo_buf t <> [] ->
  let buf := match o with MethodReturns b => b | _ => EPThread.echo_buf t end in
  buf <> []
  /\ EPThread.turn (EPThread.check_OUT ep_num) o t
     = (Return Continue,
        EPThread.Thread (EPThread.name t) buf (EPThread.check t)
          (EPThread.halts t + (if bool_decide (buf !! O = Some ep_num) then 0 else 1))
          (EPThread.printed t)).
Proof.
  intros Hq Hd Hne. cbv zeta.
  assert (Hbuf : match o with MethodReturns b => b | _ => EPThread.echo_buf t end <> []).
  { destruct o as [b|e]; [|assumption]. simpl in Hd. now destruct b. }
  split; [exact Hbuf|].
  unfold EPThread.turn, bind. rewrite (attempt_quiet o t Hq). cbn [EPThread.echo_buf].
  destruct (match o with MethodReturns b => b | _ => EPThread.echo_buf t end) as [|x buf];
    [contradiction|].
  unfold EPThread.check_OUT, EPThread.halt, modify, ret. simpl.
  destruct (decide (ep_num = x)) as [->|Hx].
  - rewrite !bool_decide_eq_true_2 by reflexivity. simpl. now rewrite Nat.add_0_r.
  - rewrite bool_decide_eq_false_2 by assumption.
    rewrite bool_decide_eq_false_2 by congruence. simpl. do 3 f_equal. lia.
Qed.

(** X16.  When the endpoints are halted.  The thread of an IN endpoint
    never halts it, whatever the calls do.  The thread of an OUT endpoint
    checks after every call that did not end the loop, also after one that
    was interrupted or would block: along such calls it halts the endpoint
    once per call that leaves a buffer not starting with the endpoint
    address, so foreign data left by one read is counted again by every
    interrupted call after it. *)
Theorem X16_halts :
  (forall script t,
      EPThread.halts (snd (EPThread.transfer EPThread.check_IN script t)) = EPThread.halts t)
  /\ (forall ep_num script t,
      forallb is_quiet script = true ->
      forallb has_data script = true ->
      EPThread.echo_buf t <> [] ->
      EPThread.transfer (EPThread.check_OUT ep_num) script t
      = (Blocked,
         EPThread.Thread (EPThread.name t) (last_buffer (EPThread.echo_buf t) script)
           (EPThread.check t)
           (EPThread.halts t + foreign_turns ep_num (EPThread.echo_buf t) script)
           (EPThread.printed t))).
Proof.
  split.
  - induction script as [|o script IH]; intros t; [reflexivity|].
    cbn [EPThread.transfer]. pose proof (turn_IN_halts o t) as H.
    destruct (EPThread.turn EPThread.check_IN o t) as [[[|]|e] t1]; simpl in H;
      [rewrite IH|simpl|simpl]; exact H.
  - intros ep_num. induction script as [|o script IH]; intros t Hq Hd Hne.
    + simpl. rewrite Nat.add_0_r. now destruct t.
    + simpl in Hq, Hd. apply andb_prop in Hq as [Ho Hq]. apply andb_prop in Hd as [Hdo Hd].
      destruct (turn_OUT_quiet ep_num o t Ho Hdo Hne) as [Hbuf Hturn].
      cbn [EPThread.transfer]. rewrite Hturn.
      rewrite IH by assumption. cbn [EPThread.name EPThread.echo_buf EPThread.check
        EPThread.halts EPThread.printed].
      f_equal. f_equal.
      * destruct o as [b|e]; [reflexivity|]. simpl. reflexivity.
      * cbn [foreign_turns]. lia.
Qed.

Lemma X16_halts_witness :
  let t := EPThread.Thread "ep2" [1; 1] (Some (EPThread.check_OUT 1)) 0 [] in
  let script := [MethodReturns [1; 7]; MethodReturns [9; 7];
                 MethodRaises (OSError errno.EINTR); MethodRaises (OSError errno.EAGAIN);
                 MethodReturns [1; 0]] in
  forallb is_quiet script = true /\ forallb has_data script = true
  /\ EPThread.echo_buf t <> []
  /\ EPThread.transfer (EPThread.check_OUT 1) script t
     = (Blocked, EPThread.Thread "ep2" [1; 0] (Some (EPThread.check_OUT 1)) 3 []).
Proof.
  cbv zeta. split; [reflexivity|]. split; [reflexivity|]. split; [discriminate|].
  rewrite (proj2 X16_halts 1
             [MethodReturns [1; 7]; MethodReturns [9; 7];
              MethodRaises (OSError errno.EINTR); MethodRaises (OSError errno.EAGAIN);
              MethodReturns [1; 0]]
             (EPThread.Thread "ep2" [1; 1] (Some (EPThread.check_OUT 1)) 0 [])
             eq_refl eq_refl ltac:(discriminate)).
  reflexivity.
Defined.
